(** * audio_summary.py: transcription and summarisation pipeline

    A shallow embedding of [src/audio_summary.py] and the properties of
    its specification.

    Python [str] values are modelled by [string]; [str.lower] folds the
    letters A to Z and leaves every other character alone, which is how
    it acts on ASCII text.  The interpreter's exceptions, the file
    system, the log and the two external services are explicit: a
    computation takes a [world] and returns an [outcome] with the world
    it leaves behind. *)

From Stdlib Require Import ZArith Ascii String List Lia Bool.
From stdpp Require Import gmap strings list.

Local Open Scope Z_scope.
Set Warnings "-register-all,-clear-no-such-hyp".

(** ** Python string primitives *)

Module Str.

(** [len(s)] *)
Definition len (s : string) : Z := Z.of_nat (String.length s).

(** [s[n:]] for a non-negative [n] *)
Fixpoint drop (n : nat) (s : string) : string :=
  match n, s with
  | O, _ => s
  | S _, EmptyString => EmptyString
  | S n', String _ s' => drop n' s'
  end.

(** [s[:n]] for a non-negative [n] *)
Fixpoint take (n : nat) (s : string) : string :=
  match n, s with
  | O, _ => EmptyString
  | S _, EmptyString => EmptyString
  | S n', String a s' => String a (take n' s')
  end.

(** [s[i:]], [s[:j]] and [s[i:j]] for indices that are not negative
    (the only ones the program computes). *)
Definition slice_from (i : Z) (s : string) : string := drop (Z.to_nat i) s.
Definition slice_to (j : Z) (s : string) : string := take (Z.to_nat j) s.
Definition slice (i j : Z) (s : string) : string :=
  take (Z.to_nat (j - i)) (drop (Z.to_nat i) s).

(** [c.lower()] on one character *)
Definition lower_char (c : ascii) : ascii :=
  let n := nat_of_ascii c in
  if (65 <=? n)%nat && (n <=? 90)%nat then ascii_of_nat (n + 32) else c.

(** [s.lower()] *)
Fixpoint lower (s : string) : string :=
  match s with
  | EmptyString => EmptyString
  | String a s' => String (lower_char a) (lower s')
  end.

(** [s.startswith(t)] *)
Fixpoint startswith (s t : string) {struct t} : bool :=
  match t, s with
  | EmptyString, _ => true
  | String _ _, EmptyString => false
  | String b t', String a s' => bool_decide (a = b) && startswith s' t'
  end.

(** [s.endswith(t)]: the last [len(t)] characters of [s] are [t]. *)
Definition endswith (s t : string) : bool :=
  (len t <=? len s) && bool_decide (slice_from (len s - len t) s = t).

(** [s.endswith(ts)] for a tuple [ts]: some member is a suffix. *)
Definition endswith_any (s : string) (ts : list string) : bool :=
  existsb (endswith s) ts.

(** [s.rfind(c)] for a one-character [c]: the highest index, or -1. *)
Fixpoint rfind (c : ascii) (s : string) : Z :=
  match s with
  | EmptyString => -1
  | String a s' =>
      let r := rfind c s' in
      if 0 <=? r then r + 1 else if bool_decide (a = c) then 0 else -1
  end.

(** Python's white space among the ASCII characters ([str.isspace]). *)
Definition isspace (c : ascii) : bool :=
  let n := nat_of_ascii c in
  ((9 <=? n)%nat && (n <=? 13)%nat) || ((28 <=? n)%nat && (n <=? 32)%nat).

(** [s.lstrip()], [s.rstrip()] and [s.strip()] *)
Fixpoint lstrip (s : string) : string :=
  match s with
  | EmptyString => EmptyString
  | String a s' => if isspace a then lstrip s' else s
  end.

Fixpoint rstrip (s : string) : string :=
  match s with
  | EmptyString => EmptyString
  | String a s' =>
      match rstrip s' with
      | EmptyString => if isspace a then EmptyString else String a EmptyString
      | r => String a r
      end
  end.

Definition strip (s : string) : string := rstrip (lstrip s).

(** [c in s] *)
Fixpoint contains (c : ascii) (s : string) : bool :=
  match s with
  | EmptyString => false
  | String a s' => bool_decide (a = c) || contains c s'
  end.

End Str.

(** ** [os.path] on POSIX *)

Module OsPath.

Definition sep : ascii := "/"%char.
Definition extsep : ascii := "."%char.

(** [posixpath.basename]: [i = p.rfind('/') + 1; return p[i:]] *)
Definition basename (p : string) : string :=
  let i := Str.rfind sep p + 1 in
  Str.slice_from i p.

(** The loop of [genericpath._splitext] that skips the leading dots of
    the file name: [true] as soon as a character that is not a dot
    is met, [false] when the scanned part holds dots only. *)
Fixpoint has_non_dot (s : string) : bool :=
  match s with
  | EmptyString => false
  | String a s' => if bool_decide (a = extsep) then has_non_dot s' else true
  end.

(** [posixpath.splitext]: the extension starts at the last dot of the
    last component, unless that component has only leading dots in
    front of it. *)
Definition splitext (p : string) : string * string :=
  let sepIndex := Str.rfind sep p in
  let dotIndex := Str.rfind extsep p in
  if (sepIndex <? dotIndex)
     && has_non_dot (Str.slice (sepIndex + 1) dotIndex p)
  then (Str.slice_to dotIndex p, Str.slice_from dotIndex p)
  else (p, EmptyString).

(** [posixpath.join(a, b)] *)
Definition join (a b : string) : string :=
  if Str.startswith b "/" then b
  else if bool_decide (a = "") || Str.endswith a "/" then a +:+ b
  else a +:+ "/" +:+ b.

End OsPath.

(** ** The format check *)

(** [supported_formats] of [is_supported_format] *)
Definition supported_formats : list string :=
  [".mp3"; ".mp4"; ".mpeg"; ".mpga"; ".m4a"; ".wav"; ".webm"].

(** [is_supported_format(file_path)] *)
Definition is_supported_format (file_path : string) : bool :=
  Str.endswith_any (Str.lower file_path) supported_formats.


(** ** Dates and [strftime] *)

(** A [datetime] value: the fields [datetime.now()] returns (a naive
    local time, so no time zone). *)
Record datetime := Datetime {
  year : Z; month : Z; day : Z;
  hour : Z; minute : Z; second : Z;
  microsecond : Z
}.

(** [t.replace(microsecond=0)]: the reading cut to the second. *)
Definition to_the_second (t : datetime) : datetime :=
  Datetime (year t) (month t) (day t) (hour t) (minute t) (second t) 0.

(** The ranges the [datetime] class enforces on the fields down to the
    second.  The microseconds are left free: no conversion below prints
    them. *)
Definition valid_datetime (t : datetime) : Prop :=
  1 <= year t <= 9999 /\ 1 <= month t <= 12 /\ 1 <= day t <= 31
  /\ 0 <= hour t < 24 /\ 0 <= minute t < 60 /\ 0 <= second t < 60.

Module Fmt.

(** The decimal digit of [n mod 10]. *)
Definition digit (n : Z) : ascii := ascii_of_nat (Z.to_nat (48 + n mod 10)).

Definition is_digit (c : ascii) : bool :=
  let n := nat_of_ascii c in (48 <=? n)%nat && (n <=? 57)%nat.

Fixpoint decimal_go (fuel : nat) (n : Z) (acc : string) : string :=
  match fuel with
  | O => acc
  | S fuel' =>
      let acc' := String (digit n) acc in
      if n <? 10 then acc' else decimal_go fuel' (n / 10) acc'
  end.

(** [str(n)] for [n >= 0]: the decimal numeral, without padding. *)
Definition decimal (n : Z) : string :=
  decimal_go (S (Z.to_nat n)) n EmptyString.

(** [s.zfill(w)] *)
Fixpoint zfill_go (k : nat) (s : string) : string :=
  match k with
  | O => s
  | S k' => String "0" (zfill_go k' s)
  end.

Definition zfill (w : nat) (s : string) : string :=
  zfill_go (w - String.length s) s.

(** One conversion of [strftime]: [%Y] is the year as the C library
    prints it, the other five are zero-padded to two digits. *)
Definition directive (c : ascii) (t : datetime) : option string :=
  if bool_decide (c = "Y"%char) then Some (decimal (year t))
  else if bool_decide (c = "m"%char) then Some (zfill 2 (decimal (month t)))
  else if bool_decide (c = "d"%char) then Some (zfill 2 (decimal (day t)))
  else if bool_decide (c = "H"%char) then Some (zfill 2 (decimal (hour t)))
  else if bool_decide (c = "M"%char) then Some (zfill 2 (decimal (minute t)))
  else if bool_decide (c = "S"%char) then Some (zfill 2 (decimal (second t)))
  else None.

(** [t.strftime(fmt)] for formats made of the six conversions above
    and literal characters; any other conversion is copied as it is. *)
Fixpoint strftime (fmt : string) (t : datetime) : string :=
  match fmt with
  | EmptyString => EmptyString
  | String "%" (String c rest as tl) =>
      match directive c t with
      | Some s => s +:+ strftime rest t
      | None => String "%" (strftime tl t)
      end
  | String a rest => String a (strftime rest t)
  end.

End Fmt.

(** ** Exceptions, outcomes and values *)

(** An instance of a subclass of [Exception]: its class name and the
    text [str(e)] gives. *)
Record exn := Exn { exn_class : string; exn_str : string }.

(** How a call ends: it returns, it raises an [Exception], or the
    interpreter is asked to exit ([SystemExit], which [except Exception]
    does not catch). *)
Inductive outcome (A : Type) : Type :=
| Return (a : A)
| Raise (e : exn)
| SystemExit (code : Z).
Arguments Return {A} a.
Arguments Raise {A} e.
Arguments SystemExit {A} code.

(** The values a decoded JSON response is made of. *)
Inductive pyval : Type :=
| PyNone
| PyInt (n : Z)
| PyStr (s : string)
| PyList (l : list pyval)
| PyDict (d : list (string * pyval)).

Module Py.

(** First binding of a key in the pairs of a dict. *)
Fixpoint assoc (k : string) (d : list (string * pyval)) : option pyval :=
  match d with
  | [] => None
  | (k', v) :: d' => if bool_decide (k' = k) then Some v else assoc k d'
  end.

(** [repr(k)] for a string made of letters, as the keys the program
    looks up are: the string between single quotes. *)
Definition repr_str (k : string) : string := "'" +:+ k +:+ "'".

(** [v[k]] for a string key [k]; the text of a [KeyError] is the
    [repr] of the key. *)
Definition getitem_str (v : pyval) (k : string) : exn + pyval :=
  match v with
  | PyDict d =>
      match assoc k d with
      | Some x => inr x
      | None => inl (Exn "KeyError" (repr_str k))
      end
  | PyStr _ => inl (Exn "TypeError" "string indices must be integers")
  | PyList _ => inl (Exn "TypeError" "list indices must be integers or slices")
  | _ => inl (Exn "TypeError" "object is not subscriptable")
  end.

(** [v[0]] *)
Definition getitem_0 (v : pyval) : exn + pyval :=
  match v with
  | PyList (x :: _) => inr x
  | PyList [] => inl (Exn "IndexError" "list index out of range")
  | PyStr (String a _) => inr (PyStr (String a EmptyString))
  | PyStr EmptyString => inl (Exn "IndexError" "string index out of range")
  | PyDict _ => inl (Exn "KeyError" "0")
  | _ => inl (Exn "TypeError" "object is not subscriptable")
  end.

(** [v.strip()] *)
Definition strip (v : pyval) : exn + string :=
  match v with
  | PyStr s => inr (Str.strip s)
  | _ => inl (Exn "AttributeError" "object has no attribute 'strip'")
  end.

End Py.

(** ** The world of a run *)

Inductive level := DEBUG | INFO | WARNING | ERROR.

Definition level_no (l : level) : Z :=
  match l with DEBUG => 10 | INFO => 20 | WARNING => 30 | ERROR => 40 end.

Record message := Message { role : string; content : string }.

(** The keyword arguments of [openai.ChatCompletion.create]. *)
Record chat_request := ChatRequest {
  model : string;
  messages : list message;
  max_tokens : Z
}.

(** A node of the file tree: the components of its path, with ["/"] in
    front for an absolute path. *)
Abbreviation node := (list string).

Inductive syscall :=
| SysMkdir (k : node)
| SysOpen (k : node)
| SysWrite (k : node).

(** What a run does that can be seen from outside, in order.  The
    three events of the file tree carry the path the program gave, as a
    node. *)
Inductive event :=
| Logged (lvl : level) (msg : string)
| ModelLoaded (name : string)
| Transcribed (path : string)
| ChatRequested (req : chat_request)
| DirCreated (k : node)
| FileOpened (k : node)
| FileWritten (k : node) (text : string).

Record world := World {
  dirs : gset node;
  files : gmap node string;
  events : list event;
  ticks : nat;
  openai_api_key : option string
}.

(** What surrounds the program and is not changed by it. *)
Record environ := Environ {
  (** [os.getenv("OPENAI_API_KEY")] *)
  env_api_key : option string;
  (** [args.file_path], the positional argument [argparse] accepted *)
  env_file_path : string;
  (** [whisper.load_model(name)]: the error it raises, if any *)
  whisper_load_model : string -> option exn;
  (** [model.transcribe(path)]: the dict it returns or the error it raises *)
  whisper_transcribe : string -> exn + gmap string string;
  (** [openai.ChatCompletion.create(...)]: the decoded response or the
      error it raises *)
  chat_completion_create : chat_request -> exn + pyval;
  (** the successive readings of the wall clock *)
  clock : nat -> datetime;
  (** the error with which the operating system refuses a call, if any
      (permissions, full disk, read-only medium) *)
  os_fault : syscall -> option exn
}.

(** A computation: state passing with an outcome. *)
Definition M (A : Type) : Type := world -> outcome A * world.

Definition ret {A} (a : A) : M A := fun w => (Return a, w).

Definition bind {A B} (m : M A) (k : A -> M B) : M B :=
  fun w =>
    match m w with
    | (Return a, w') => k a w'
    | (Raise e, w') => (Raise e, w')
    | (SystemExit c, w') => (SystemExit c, w')
    end.

#[global] Instance M_ret : MRet M := @ret.
#[global] Instance M_bind : MBind M := fun A B k m => bind m k.

(** [raise e] *)
Definition raise {A} (e : exn) : M A := fun w => (Raise e, w).

(** [exit(code)] *)
Definition sys_exit {A} (code : Z) : M A := fun w => (SystemExit code, w).

(** [try: body / except Exception as e: handler(e)] *)
Definition try_except {A} (body : M A) (handler : exn -> M A) : M A :=
  fun w =>
    match body w with
    | (Raise e, w') => handler e w'
    | r => r
    end.

(** The result of a library call enters the computation. *)
Definition lift {A} (r : exn + A) : M A :=
  match r with
  | inl e => raise e
  | inr a => ret a
  end.

(** The world after some more events. *)
Definition with_events (w : world) (evs : list event) : world :=
  World (dirs w) (files w) (events w ++ evs) (ticks w) (openai_api_key w).

(** The world after one more reading of the clock. *)
Definition ticked (w : world) : world :=
  World (dirs w) (files w) (events w) (S (ticks w)) (openai_api_key w).

(** The world with another set of directories, or other files. *)
Definition with_dirs (w : world) (d : gset node) : world :=
  World d (files w) (events w) (ticks w) (openai_api_key w).

Definition with_files (w : world) (f : gmap node string) : world :=
  World (dirs w) f (events w) (ticks w) (openai_api_key w).

(** The world once [openai.api_key] is set. *)
Definition with_api_key (w : world) (k : option string) : world :=
  World (dirs w) (files w) (events w) (ticks w) k.

Definition emit (ev : event) : M unit :=
  fun w => (Return tt, with_events w [ev]).

(** The exit status of the process for the outcome of the script. *)
Definition exit_status {A} (o : outcome A) : Z :=
  match o with
  | Return _ => 0
  | Raise _ => 1
  | SystemExit c => c
  end.

(** *** Logging

    [logging.basicConfig(level=logging.INFO, ...)]: a record below INFO
    is dropped, the others go to the console. *)
Definition logging_level : level := INFO.

Definition logging_log (lvl : level) (msg : string) : M unit :=
  if level_no logging_level <=? level_no lvl then emit (Logged lvl msg) else ret tt.

Definition logging_debug := logging_log DEBUG.
Definition logging_info := logging_log INFO.
Definition logging_error := logging_log ERROR.

(** ** The file tree

    The tree is keyed by paths as they are spelled: one node for each
    sequence of names.  Symbolic and hard links are not part of it, and
    [".."] is a name like another, so two spellings of one file are two
    nodes here.  What is stated about nodes below is stated about the
    paths the program hands to the operating system. *)

Module Fs.

(** [p.split('/')]: the fields between the separators. *)
Fixpoint fields (p : string) : list string :=
  match p with
  | EmptyString => [EmptyString]
  | String a p' =>
      if bool_decide (a = OsPath.sep) then EmptyString :: fields p'
      else match fields p' with
           | x :: r => String a x :: r
           | [] => [String a EmptyString]
           end
  end.

(** The names a path walks through: empty fields and ["."] name no
    step.  [".."] is kept as a name of its own. *)
Definition components (p : string) : list string :=
  filter (fun x => x <> "" /\ x <> ".") (fields p).

(** The node a path names, from the working directory or the root. *)
Definition resolve (p : string) : node :=
  (if Str.startswith p "/" then ["/"] else []) ++ components p.

(** The path asks for a directory: it ends with a separator, so
    [p.split('/')[-1]] is empty. *)
Definition wants_dir (p : string) : bool :=
  bool_decide (last (fields p) = Some EmptyString).

(** The working directory and the root are always there. *)
Definition is_dir_node (w : world) (k : node) : bool :=
  bool_decide (k = []) || bool_decide (k = ["/"]) || bool_decide (k ∈ dirs w).

Definition is_file_node (w : world) (k : node) : bool :=
  bool_decide (is_Some (files w !! k)).

(** [os.path.isdir(p)] *)
Definition isdir (w : world) (p : string) : bool :=
  negb (bool_decide (p = "")) && is_dir_node w (resolve p).

(** [os.path.exists(p)], for a path whose steps are plain names (a
    final ["."] after a regular file, or a [".."] step, is not looked
    through). *)
Definition exists_ (w : world) (p : string) : bool :=
  negb (bool_decide (p = ""))
  && (is_dir_node w (resolve p)
      || (negb (wants_dir p) && is_file_node w (resolve p))).

(** What reading the file back gives: [open(p).read()]. *)
Definition read (w : world) (p : string) : option string :=
  if bool_decide (p = "") || wants_dir p then None else files w !! resolve p.

(** The nodes on the way to [pre ++ rest], nearest the start first. *)
Fixpoint chain (pre rest : node) : list node :=
  match rest with
  | [] => []
  | c :: r => (pre ++ [c]) :: chain (pre ++ [c]) r
  end.

(** The directory a node lies in. *)
Definition parent (k : node) : node := removelast k.

End Fs.

Section Program.

Context (env : environ).

Definition set_dirs (d : gset node) : M unit :=
  fun w => (Return tt, with_dirs w d).

Definition set_files (f : gmap node string) : M unit :=
  fun w => (Return tt, with_files w f).

Definition get_world : M world := fun w => (Return w, w).

(** The operating system refuses the call, or lets it through. *)
Definition syscall_gate (c : syscall) : M unit :=
  match os_fault env c with
  | Some e => raise e
  | None => ret tt
  end.

(** One step of [os.makedirs]: the node is made a directory unless it
    is one already; a file in its place is an error. *)
Definition ensure_dir (k : node) : M unit :=
  w ← get_world;
  if Fs.is_dir_node w k then ret tt
  else if Fs.is_file_node w k then raise (Exn "FileExistsError" "File exists")
  else (syscall_gate (SysMkdir k);;
        set_dirs ({[k]} ∪ dirs w);;
        emit (DirCreated k)).

Fixpoint ensure_dirs (ks : list node) : M unit :=
  match ks with
  | [] => ret tt
  | k :: ks' => ensure_dir k;; ensure_dirs ks'
  end.

(** [os.makedirs(name, exist_ok=exist_ok)]: the leaf directory and
    every directory still missing on the way to it are created. *)
Definition os_makedirs (name : string) (exist_ok : bool) : M unit :=
  w ← get_world;
  if bool_decide (name = "") then
    raise (Exn "FileNotFoundError" "No such file or directory")
  else if Fs.is_dir_node w (Fs.resolve name) && negb exist_ok then
    raise (Exn "FileExistsError" "File exists")
  else ensure_dirs (Fs.chain [] (Fs.resolve name)).

(** [os.path.exists(p)] *)
Definition os_path_exists (p : string) : M bool :=
  w ← get_world; ret (Fs.exists_ w p).

(** [with open(p, "w") as f: f.write(text)]: the file is created or
    truncated when it is opened, then receives the text. *)
Definition open_w_write (p text : string) : M unit :=
  w ← get_world;
  let k := Fs.resolve p in
  if bool_decide (p = "") then
    raise (Exn "FileNotFoundError" "No such file or directory")
  else if Fs.is_dir_node w k || Fs.wants_dir p then
    raise (Exn "IsADirectoryError" "Is a directory")
  else if negb (Fs.is_dir_node w (Fs.parent k)) then
    raise (Exn "FileNotFoundError" "No such file or directory")
  else (syscall_gate (SysOpen k);;
        set_files (<[k := ""]> (files w));;
        emit (FileOpened k);;
        syscall_gate (SysWrite k);;
        set_files (<[k := text]> (files w));;
        emit (FileWritten k text)).

(** [datetime.now()]: the next reading of the clock. *)
Definition datetime_now : M datetime :=
  fun w => (Return (clock env (ticks w)), ticked w).

(** *** [class FileWriter] *)

Record FileWriter := { directory : string }.

Definition ensure_directory_exists (self : FileWriter) : M unit :=
  os_makedirs (directory self) true.

(** [FileWriter(directory)] *)
Definition FileWriter_init (dir : string) : M FileWriter :=
  let self := {| directory := dir |} in
  ensure_directory_exists self;;
  ret self.

Definition write_to_file (self : FileWriter) (filename text : string) : M unit :=
  let file_path := OsPath.join (directory self) filename in
  open_w_write file_path text;;
  logging_info ("Content saved to " +:+ file_path).

(** *** [class AudioProcessor] *)

Record AudioProcessor := { model_name : string }.

(** [AudioProcessor()] *)
Definition AudioProcessor_init : M AudioProcessor :=
  logging_info "Loading Whisper model...";;
  match whisper_load_model env "base" with
  | Some e => raise e
  | None =>
      emit (ModelLoaded "base");;
      logging_info "Whisper model loaded.";;
      ret {| model_name := "base" |}
  end.

(** [result['text']] on the dict [model.transcribe] returns *)
Definition result_text (result : gmap string string) : M string :=
  match result !! "text" with
  | Some t => ret t
  | None => raise (Exn "KeyError" (Py.repr_str "text"))
  end.

Definition transcribe_audio (self : AudioProcessor) (file_path : string) : M string :=
  try_except
    (emit (Transcribed file_path);;
     result ← lift (whisper_transcribe env file_path);
     result_text result)
    (fun e =>
       logging_error ("Error transcribing audio: " +:+ exn_str e);;
       ret "").

(** The request [summarize_text] sends for a text. *)
Definition summary_request (text : string) : chat_request :=
  {| model := "gpt-4";
     messages :=
       [ Message "system" "You are an assistant that summarizes texts.";
         Message "user" ("Summarize the following text: " +:+ text) ];
     max_tokens := 800 |}.

(** [openai.ChatCompletion.create(...)]: the request leaves the
    program, and the call returns what the service answers to it or
    raises the error the service answers with. *)
Definition openai_ChatCompletion_create (request : chat_request) : M pyval :=
  emit (ChatRequested request);;
  lift (chat_completion_create env request).

Definition summarize_text (self : AudioProcessor) (text : string) : M string :=
  try_except
    (response ← openai_ChatCompletion_create (summary_request text);
     choices ← lift (Py.getitem_str response "choices");
     choice ← lift (Py.getitem_0 choices);
     msg ← lift (Py.getitem_str choice "message");
     body ← lift (Py.getitem_str msg "content");
     summary ← lift (Py.strip body);
     ret summary)
    (fun e =>
       logging_error ("Error summarizing text: " +:+ exn_str e);;
       ret "").

(** *** Module-level functions *)

Definition generate_output_filename (base_name suffix extension : string) : M string :=
  now ← datetime_now;
  let timestamp := Fmt.strftime "%Y%m%d_%H%M%S" now in
  ret (base_name +:+ "_" +:+ suffix +:+ "_" +:+ timestamp +:+ "." +:+ extension).

(** [parse_arguments()]: the command line [argparse] accepted. *)
Definition parse_arguments : M string := ret (env_file_path env).

Definition main : M unit :=
  file_path ← parse_arguments;
  found ← os_path_exists file_path;
  if negb found then
    logging_error "The specified file does not exist."
  else if negb (is_supported_format file_path) then
    logging_error
      "Unsupported file format. Supported formats are: mp3, mp4, mpeg, mpga, m4a, wav, webm"
  else
    let base_name := fst (OsPath.splitext (OsPath.basename file_path)) in
    audio_processor ← AudioProcessor_init;
    logging_info "Transcription in progress...";;
    text ← transcribe_audio audio_processor file_path;
    logging_info "Transcription complete. Text:";;
    logging_debug text;;
    transcription_writer ← FileWriter_init "audio_transcription";
    transcription_filename ← generate_output_filename base_name "transcription" "txt";
    write_to_file transcription_writer transcription_filename text;;
    logging_info "Summarization in progress...";;
    summary ← summarize_text audio_processor text;
    logging_info "Summarization complete. Summary:";;
    logging_debug summary;;
    summary_writer ← FileWriter_init "audio_summarize";
    summary_filename ← generate_output_filename base_name "summary" "txt";
    write_to_file summary_writer summary_filename summary.

(** [not api_key]: [None] and the empty string are false. *)
Definition not_api_key (k : option string) : bool :=
  match k with
  | None => true
  | Some s => bool_decide (s = "")
  end.

Definition set_openai_api_key (k : option string) : M unit :=
  fun w => (Return tt, with_api_key w k).

(** The module run as a script: the statements at module level, then
    [main()]. *)
Definition script : M unit :=
  let api_key := env_api_key env in
  (if not_api_key api_key then
     logging_error "OpenAI API key is not set.";; sys_exit 1
   else ret tt);;
  set_openai_api_key api_key;;
  main.

End Program.

(** ** Observations on a run *)

(** The chat-completion requests among some events, in order. *)
Fixpoint chat_requests (evs : list event) : list chat_request :=
  match evs with
  | [] => []
  | ChatRequested r :: evs' => r :: chat_requests evs'
  | _ :: evs' => chat_requests evs'
  end.

(** The event is a log record. *)
Definition is_log (ev : event) : bool :=
  match ev with
  | Logged _ _ => true
  | _ => false
  end.

(** The event touches the file tree. *)
Definition is_fs_event (ev : event) : bool :=
  match ev with
  | DirCreated _ | FileOpened _ | FileWritten _ _ => true
  | _ => false
  end.

(** Nothing stands in the way of [os.makedirs(name)]: each node on the
    way is a directory already, or is free and may be created. *)
Definition can_makedirs (env : environ) (w : world) (name : string) : bool :=
  negb (bool_decide (name = ""))
  && forallb
       (fun k => Fs.is_dir_node w k
                 || (negb (Fs.is_file_node w k)
                     && bool_decide (os_fault env (SysMkdir k) = None)))
       (Fs.chain [] (Fs.resolve name)).

(** Nothing stands in the way of writing the file [p]: it names no
    directory, it lies in a directory that exists, and the operating
    system lets the file be opened and written. *)
Definition can_write (env : environ) (w : world) (p : string) : bool :=
  negb (bool_decide (p = ""))
  && negb (Fs.is_dir_node w (Fs.resolve p) || Fs.wants_dir p)
  && Fs.is_dir_node w (Fs.parent (Fs.resolve p))
  && bool_decide (os_fault env (SysOpen (Fs.resolve p)) = None)
  && bool_decide (os_fault env (SysWrite (Fs.resolve p)) = None).

(** What creating directories among [ks] may change between two
    worlds: nothing but the set of directories, which grows by nodes of
    [ks], and the events that record it. *)
Definition dirs_grown (ks : list node) (w w' : world) : Prop :=
  files w' = files w /\ ticks w' = ticks w
  /\ openai_api_key w' = openai_api_key w
  /\ dirs w ⊆ dirs w'
  /\ (forall k, k ∈ dirs w' -> k ∈ dirs w \/ k ∈ ks)
  /\ exists evs, events w' = events w ++ evs /\ forallb is_fs_event evs = true.

(** The file name [generate_output_filename] builds at the clock
    reading [t]. *)
Definition filename_at (t : datetime) (base suffix ext : string) : string :=
  base +:+ "_" +:+ suffix +:+ "_" +:+ Fmt.strftime "%Y%m%d_%H%M%S" t +:+ "." +:+ ext.

(** A file name with no separator in it that names a step. *)
Definition plain_name (f : string) : Prop :=
  Str.contains OsPath.sep f = false /\ f <> "" /\ f <> ".".

(** Characters that [lower] neither produces from another character nor
    changes: the separator and the dot are two of them. *)
Definition lower_stable (c : ascii) : Prop :=
  forall a, Str.lower_char a = c <-> a = c.

(** The shape the specification gives the timestamp, [YYYYMMDD_HHMMSS],
    written digit by digit for a clock reading. *)
Definition stamp_YYYYMMDD_HHMMSS (t : datetime) : string :=
  String (Fmt.digit (year t / 1000)) (String (Fmt.digit (year t / 100))
  (String (Fmt.digit (year t / 10)) (String (Fmt.digit (year t))
  (String (Fmt.digit (month t / 10)) (String (Fmt.digit (month t))
  (String (Fmt.digit (day t / 10)) (String (Fmt.digit (day t))
  (String "_"
  (String (Fmt.digit (hour t / 10)) (String (Fmt.digit (hour t))
  (String (Fmt.digit (minute t / 10)) (String (Fmt.digit (minute t))
  (String (Fmt.digit (second t / 10)) (String (Fmt.digit (second t))
  EmptyString)))))))))))))).

(** Eight digits, an underscore, six digits: fourteen digits in all. *)
Definition is_stamp (s : string) : bool :=
  match s with
  | String y1 (String y2 (String y3 (String y4 (String m1 (String m2
    (String d1 (String d2 (String u (String h1 (String h2 (String n1
    (String n2 (String s1 (String s2 EmptyString)))))))))))))) =>
      forallb Fmt.is_digit [y1; y2; y3; y4; m1; m2; d1; d2; h1; h2; n1; n2; s1; s2]
      && bool_decide (u = "_"%char)
  | _ => false
  end.

(** ** What a run may touch *)

(** The two directories [main] writes under. *)
Definition output_dir (k : node) : bool :=
  bool_decide (k = ["audio_transcription"]) || bool_decide (k = ["audio_summarize"]).

(** A node directly in one of the two output directories whose name
    ends with [.txt]. *)
Definition output_node (k : node) : bool :=
  match k with
  | [d; name] => output_dir [d] && Str.endswith name ".txt"
  | _ => false
  end.

(** The events a run of [main] may add: log records at level INFO or
    above, the loading of the [base] model, the transcription of the
    input path, chat requests, and changes of the file tree at the output
    directories and at output nodes. *)
Definition allowed_event (env : environ) (ev : event) : bool :=
  match ev with
  | Logged DEBUG _ => false
  | Logged _ _ => true
  | ModelLoaded name => bool_decide (name = "base")
  | Transcribed path => bool_decide (path = env_file_path env)
  | ChatRequested _ => true
  | DirCreated k => output_dir k
  | FileOpened k => output_node k
  | FileWritten k _ => output_node k
  end.

(** The node an event of the file tree is about. *)
Definition event_node (ev : event) : option node :=
  match ev with
  | DirCreated k | FileOpened k | FileWritten k _ => Some k
  | _ => None
  end.

(** From [w] to [w'] nothing was touched but output nodes, output
    directories and the log, and at most [n] chat requests were sent. *)
Definition touched_only_outputs (env : environ) (n : nat) (w w' : world) : Prop :=
  (forall k, output_node k = false -> files w' !! k = files w !! k)
  /\ dirs w ⊆ dirs w'
  /\ (forall k, k ∈ dirs w' -> k ∈ dirs w \/ output_dir k = true)
  /\ exists evs,
       events w' = events w ++ evs
       /\ forallb (allowed_event env) evs = true
       /\ (length (chat_requests evs) <= n)%nat.

(** A computation that, however it ends, touches only outputs. *)
Definition confined {A} (env : environ) (n : nat) (m : M A) : Prop :=
  forall w, touched_only_outputs env n w (snd (m w)).

(** ** Scenarios

    Concrete surroundings on which the properties below are exercised. *)

Definition morning : datetime := Datetime 2024 3 7 9 5 0 0.

(** A quarter of a second later. *)
Definition later_that_second : datetime := Datetime 2024 3 7 9 5 0 250000.

(** A response of the chat service with one choice. *)
Definition response_with (text : string) : pyval :=
  PyDict [("choices",
           PyList [PyDict [("message", PyDict [("role", PyStr "assistant");
                                               ("content", PyStr text)])]])].

Definition scenario (key : option string) (path : string)
    (heard : exn + gmap string string) (answer : exn + pyval)
    (time : nat -> datetime) : environ :=
  {| env_api_key := key;
     env_file_path := path;
     whisper_load_model := fun _ => None;
     whisper_transcribe := fun _ => heard;
     chat_completion_create := fun _ => answer;
     clock := time;
     os_fault := fun _ => None |}.

(** [speech.mp3] is transcribed and summarised. *)
Definition speech_env : environ :=
  scenario (Some "sk-test") "speech.mp3"
    (inr {[ "text" := "hello world" ]}) (inr (response_with " A greeting. "))
    (fun _ => morning).

(** The speech model fails on [speech.mp3]. *)
Definition deaf_env : environ :=
  scenario (Some "sk-test") "speech.mp3"
    (inl (Exn "RuntimeError" "could not decode audio")) (inr (response_with "Nothing."))
    (fun _ => morning).

(** The chat service is out of reach. *)
Definition offline_env : environ :=
  scenario (Some "sk-test") "speech.mp3"
    (inr {[ "text" := "hello world" ]}) (inl (Exn "APIConnectionError" "connection refused"))
    (fun _ => morning).

(** Two runs on [speech.mp3] within one second of the wall clock, a
    quarter of a second apart: the recording was replaced in between, so
    the two transcripts differ. *)
Definition first_run_env : environ :=
  scenario (Some "sk-test") "speech.mp3"
    (inr {[ "text" := "first take" ]}) (inr (response_with "One."))
    (fun _ => morning).

Definition second_run_env : environ :=
  scenario (Some "sk-test") "speech.mp3"
    (inr {[ "text" := "second take" ]}) (inr (response_with "Two."))
    (fun _ => later_that_second).

(** The operating system lets no file be opened for writing. *)
Definition readonly_env : environ :=
  {| env_api_key := Some "sk-test";
     env_file_path := "speech.mp3";
     whisper_load_model := fun _ => None;
     whisper_transcribe := fun _ => inr {[ "text" := "hello world" ]};
     chat_completion_create := fun _ => inr (response_with "A greeting.");
     clock := fun _ => morning;
     os_fault := fun c =>
       match c with
       | SysOpen _ => Some (Exn "PermissionError" "Permission denied")
       | _ => None
       end |}.

Definition missing_env : environ :=
  scenario (Some "sk-test") "missing.mp3"
    (inr {[ "text" := "hello world" ]}) (inr (response_with "A greeting."))
    (fun _ => morning).

Definition no_key_env : environ :=
  scenario None "speech.mp3"
    (inr {[ "text" := "hello world" ]}) (inr (response_with "A greeting."))
    (fun _ => morning).

(** A working directory that holds [speech.mp3] and nothing else. *)
Definition speech_world : world :=
  World ∅ {[ ["speech.mp3"] := "RIFF" ]} [] 0 None.

(** The speech model answers with a dict that has no [text] entry. *)
Definition textless_env : environ :=
  scenario (Some "sk-test") "speech.mp3"
    (inr {[ "language" := "en" ]}) (inr (response_with "Nothing."))
    (fun _ => morning).

(** A clock that moves on by one second at each reading. *)
Definition ticking_env : environ :=
  scenario (Some "sk-test") "speech.mp3"
    (inr {[ "text" := "hello world" ]}) (inr (response_with " A greeting. "))
    (fun n => Datetime 2024 3 7 9 5 (Z.of_nat n) 0).

(** The speech model cannot be loaded. *)
Definition no_model_env : environ :=
  {| env_api_key := Some "sk-test";
     env_file_path := "speech.mp3";
     whisper_load_model := fun _ => Some (Exn "RuntimeError" "checkpoint not found");
     whisper_transcribe := fun _ => inr {[ "text" := "hello world" ]};
     chat_completion_create := fun _ => inr (response_with "A greeting.");
     clock := fun _ => morning;
     os_fault := fun _ => None |}.

(** A working directory in which [audio_transcription] is a file. *)
Definition blocked_world : world :=
  World ∅ {[ ["speech.mp3"] := "RIFF"; ["audio_transcription"] := "notes" ]} [] 0 None.

(** The input is [notes.pdf], which lies in the working directory. *)
Definition pdf_env : environ :=
  scenario (Some "sk-test") "notes.pdf"
    (inr {[ "text" := "hello world" ]}) (inr (response_with "A greeting."))
    (fun _ => morning).

Definition notes_world : world :=
  World ∅ {[ ["notes.pdf"] := "%PDF" ]} [] 0 None.

(** A chat service that sends back, as its one choice, the content of
    the last message of the request it was given. *)
Definition echo (request : chat_request) : exn + pyval :=
  match last (messages request) with
  | Some m => inr (response_with (content m))
  | None => inl (Exn "InvalidRequestError" "no messages")
  end.

Definition echo_env : environ :=
  {| env_api_key := Some "sk-test";
     env_file_path := "speech.mp3";
     whisper_load_model := fun _ => None;
     whisper_transcribe := fun _ => inr {[ "text" := "hello world" ]};
     chat_completion_create := echo;
     clock := fun _ => morning;
     os_fault := fun _ => None |}.

(** * Properties *)

(** ** The program on concrete inputs *)

Example is_supported_format_upper : is_supported_format "Talk.MP3" = true.
Proof. reflexivity. Qed.

Example is_supported_format_pdf : is_supported_format "notes.pdf" = false.
Proof. reflexivity. Qed.

Example splitext_plain :
  OsPath.splitext "a/b.c/speech.old.mp3" = ("a/b.c/speech.old", ".mp3").
Proof. reflexivity. Qed.

Example splitext_hidden : OsPath.splitext "dir/..mp3" = ("dir/..mp3", "").
Proof. reflexivity. Qed.

Example basename_nested : OsPath.basename "a/b/speech.mp3" = "speech.mp3".
Proof. reflexivity. Qed.

Example join_relative :
  OsPath.join "audio_summarize" "x.txt" = "audio_summarize/x.txt".
Proof. reflexivity. Qed.

Example join_absolute : OsPath.join "audio_summarize" "/tmp/x.txt" = "/tmp/x.txt".
Proof. reflexivity. Qed.

Example strip_spaces : Str.strip "  A greeting. " = "A greeting.".
Proof. reflexivity. Qed.

Example resolve_messy : Fs.resolve "/a//b/./c/" = ["/"; "a"; "b"; "c"].
Proof. reflexivity. Qed.

Example strftime_morning : Fmt.strftime "%Y%m%d_%H%M%S" morning = "20240307_090500".
Proof. reflexivity. Qed.

(** The end-to-end scenario of the specification: [speech.mp3] is
    heard as [hello world] and summarised as [A greeting.]; two files
    are created. *)
Example speech_end_to_end :
  let w := snd (script speech_env speech_world) in
  fst (script speech_env speech_world) = Return tt
  /\ Fs.read w "audio_transcription/speech_transcription_20240307_090500.txt"
     = Some "hello world"
  /\ Fs.read w "audio_summarize/speech_summary_20240307_090500.txt"
     = Some "A greeting."
  /\ size (files w) = 3%nat.
Proof. vm_compute. repeat split; reflexivity. Qed.

(** A malformed response of the chat service counts as a failure. *)
Example summarize_text_malformed :
  fst (summarize_text
         (scenario (Some "sk-test") "speech.mp3" (inr ∅) (inr (PyDict [("choices", PyList [])]))
            (fun _ => morning))
         {| model_name := "base" |} "hello" speech_world)
  = Return "".
Proof. reflexivity. Qed.

(** ** Strings *)

Lemma str_app_cons a s t : String a s +:+ t = String a (s +:+ t).
Proof. reflexivity. Qed.

Lemma str_app_nil_r s : s +:+ "" = s.
Proof. induction s as [|a s IH]; [done|]. by rewrite str_app_cons, IH. Qed.

Lemma str_app_assoc s t u : (s +:+ t) +:+ u = s +:+ t +:+ u.
Proof. induction s as [|a s IH]; [done|]. by rewrite !str_app_cons, IH. Qed.

Lemma str_length_app s t :
  String.length (s +:+ t) = (String.length s + String.length t)%nat.
Proof. induction s as [|a s IH]; [done|]. rewrite str_app_cons. simpl. by rewrite IH. Qed.

Lemma str_len_app s t : Str.len (s +:+ t) = Str.len s + Str.len t.
Proof. unfold Str.len. rewrite str_length_app. lia. Qed.

Lemma str_len_nonneg s : 0 <= Str.len s.
Proof. unfold Str.len. lia. Qed.

Lemma str_take_drop n s : Str.take n s +:+ Str.drop n s = s.
Proof.
  revert s. induction n as [|n IH]; intros [|a s]; simpl; try done.
  by rewrite str_app_cons, IH.
Qed.

Lemma str_length_take n s :
  (n <= String.length s)%nat -> String.length (Str.take n s) = n.
Proof.
  revert s. induction n as [|n IH]; intros [|a s]; simpl; intros Hn; try lia.
  rewrite IH; lia.
Qed.

Lemma str_drop_app_length pre s : Str.drop (String.length pre) (pre +:+ s) = s.
Proof. induction pre as [|a pre IH]; [by destruct s|]. by rewrite str_app_cons. Qed.

Lemma str_take_app_length pre s : Str.take (String.length pre) (pre +:+ s) = pre.
Proof.
  induction pre as [|a pre IH]; [by destruct s|].
  rewrite str_app_cons. simpl. by rewrite IH.
Qed.

Lemma str_lower_app s t : Str.lower (s +:+ t) = Str.lower s +:+ Str.lower t.
Proof. induction s as [|a s IH]; [done|]. rewrite str_app_cons. simpl. by rewrite IH. Qed.

Lemma str_lower_length s : String.length (Str.lower s) = String.length s.
Proof. induction s as [|a s IH]; simpl; congruence. Qed.

Lemma str_lower_drop n s : Str.lower (Str.drop n s) = Str.drop n (Str.lower s).
Proof. revert s. induction n as [|n IH]; intros [|a s]; simpl; auto. Qed.

(** [endswith] holds exactly of the strings that are some prefix
    followed by the suffix. *)
Lemma str_endswith_spec s t :
  Str.endswith s t = true <-> exists pre, s = pre +:+ t.
Proof.
  unfold Str.endswith, Str.slice_from. split.
  - intros [Hle Heq%bool_decide_eq_true]%andb_true_iff.
    exists (Str.take (Z.to_nat (Str.len s - Str.len t)) s).
    etrans; [symmetry; apply (str_take_drop (Z.to_nat (Str.len s - Str.len t)))|].
    by f_equal.
  - intros [pre ->]. rewrite str_len_app. apply andb_true_iff. split.
    + pose proof (str_len_nonneg pre). lia.
    + apply bool_decide_eq_true.
      replace (Z.to_nat (Str.len pre + Str.len t - Str.len t))
        with (String.length pre) by (unfold Str.len; lia).
      apply str_drop_app_length.
Qed.

Lemma str_endswith_any_spec s ts :
  Str.endswith_any s ts = true <-> exists t pre, In t ts /\ s = pre +:+ t.
Proof.
  unfold Str.endswith_any. rewrite existsb_exists. split.
  - intros (t & Hin & [pre ->]%str_endswith_spec). eauto.
  - intros (t & pre & Hin & ->). exists t. split; [done|].
    apply str_endswith_spec. eauto.
Qed.

(** *** [rfind] *)

Lemma str_rfind_bounds c s : -1 <= Str.rfind c s < Str.len s.
Proof.
  unfold Str.len. induction s as [|a s IH]; simpl; [lia|].
  destruct (0 <=? Str.rfind c s) eqn:E; [lia|].
  case_bool_decide; lia.
Qed.

Lemma str_rfind_none c s : Str.rfind c s = -1 <-> Str.contains c s = false.
Proof.
  induction s as [|a s IH]; simpl; [done|].
  pose proof (str_rfind_bounds c s) as Hb.
  destruct (0 <=? Str.rfind c s) eqn:E.
  - apply Z.leb_le in E. split; [lia|].
    intros [_ H]%orb_false_iff. apply IH in H. lia.
  - apply Z.leb_gt in E. assert (Str.rfind c s = -1) as Hr by lia.
    apply IH in Hr. rewrite Hr, orb_false_r.
    case_bool_decide; split; (done || lia).
Qed.

Lemma str_rfind_app_absent c pre t :
  Str.contains c t = false -> Str.rfind c (pre +:+ t) = Str.rfind c pre.
Proof.
  intros Ht. induction pre as [|a pre IH].
  - simpl. by apply str_rfind_none.
  - rewrite str_app_cons. simpl. by rewrite IH.
Qed.

Lemma str_rfind_app_last c pre t :
  Str.contains c t = false -> Str.rfind c (pre +:+ String c t) = Str.len pre.
Proof.
  intros Ht. apply str_rfind_none in Ht. unfold Str.len.
  induction pre as [|a pre IH].
  - simpl. rewrite Ht. simpl. by rewrite bool_decide_eq_true_2.
  - rewrite str_app_cons. simpl String.length. simpl Str.rfind. rewrite IH.
    destruct (0 <=? _) eqn:E; [lia|]. apply Z.leb_gt in E. lia.
Qed.

Lemma lower_stable_sep : lower_stable OsPath.sep.
Proof. intros [[] [] [] [] [] [] [] []]; vm_compute; split; congruence. Qed.

Lemma lower_stable_extsep : lower_stable OsPath.extsep.
Proof. intros [[] [] [] [] [] [] [] []]; vm_compute; split; congruence. Qed.

Lemma str_rfind_lower c s :
  lower_stable c -> Str.rfind c (Str.lower s) = Str.rfind c s.
Proof.
  intros Hc. induction s as [|a s IH]; simpl; [done|]. rewrite IH.
  destruct (0 <=? _); [done|].
  rewrite (bool_decide_ext _ _ (Hc a)). done.
Qed.

Lemma str_contains_lower c s :
  lower_stable c -> Str.contains c (Str.lower s) = Str.contains c s.
Proof.
  intros Hc. induction s as [|a s IH]; simpl; [done|].
  by rewrite IH, (bool_decide_ext _ _ (Hc a)).
Qed.

Lemma str_contains_take c n s :
  Str.contains c s = false -> Str.contains c (Str.take n s) = false.
Proof.
  revert s. induction n as [|n IH]; intros [|a s]; simpl; try done.
  intros [-> H]%orb_false_iff. simpl. auto.
Qed.

Lemma str_contains_app c s t :
  Str.contains c (s +:+ t) = Str.contains c s || Str.contains c t.
Proof.
  induction s as [|a s IH]; [done|]. rewrite str_app_cons. simpl.
  by rewrite IH, orb_assoc.
Qed.

(** What follows the last occurrence of a character holds none. *)
Lemma str_contains_after_rfind c s :
  Str.contains c (Str.slice_from (Str.rfind c s + 1) s) = false.
Proof.
  unfold Str.slice_from. induction s as [|a s IH]; [done|]. simpl Str.rfind.
  pose proof (str_rfind_bounds c s) as Hb.
  destruct (0 <=? Str.rfind c s) eqn:E.
  - apply Z.leb_le in E.
    replace (Z.to_nat (Str.rfind c s + 1 + 1))
      with (S (Z.to_nat (Str.rfind c s + 1))) by lia.
    exact IH.
  - apply Z.leb_gt in E. assert (Str.rfind c s = -1) as Hr by lia.
    apply str_rfind_none in Hr. case_bool_decide as Ha; simpl.
    + done.
    + rewrite Hr. by rewrite bool_decide_eq_false_2.
Qed.

(** ** [os.path.splitext] and the format check *)

Lemma splitext_app p :
  fst (OsPath.splitext p) +:+ snd (OsPath.splitext p) = p.
Proof.
  unfold OsPath.splitext. destruct (_ && _); simpl.
  - apply str_take_drop.
  - apply str_app_nil_r.
Qed.

(** Each supported suffix is a dot followed by letters and digits. *)
Lemma supported_formats_shape suf :
  In suf supported_formats ->
  exists t, suf = String OsPath.extsep t
            /\ Str.contains OsPath.extsep t = false
            /\ Str.contains OsPath.sep t = false.
Proof.
  unfold supported_formats. simpl.
  intros H. repeat (destruct H as [<- | H]; [eexists; split; [reflexivity|done]|]).
  destruct H.
Qed.

(** When the lowercased path ends with a dot and a dot-free tail, the
    extension [splitext] finds is that ending, or there is none. *)
Lemma splitext_ext_of_ending p pre t :
  Str.lower p = pre +:+ String OsPath.extsep t ->
  Str.contains OsPath.extsep t = false ->
  snd (OsPath.splitext p) = ""
  \/ Str.lower (snd (OsPath.splitext p)) = String OsPath.extsep t.
Proof.
  intros Hp Ht. unfold OsPath.splitext.
  destruct (_ && _); simpl; [right | by left].
  unfold Str.slice_from. rewrite str_lower_drop.
  rewrite <- (str_rfind_lower _ _ lower_stable_extsep), Hp.
  rewrite str_rfind_app_last by done.
  unfold Str.len. rewrite Nat2Z.id. apply str_drop_app_length.
Qed.

Lemma is_supported_format_ending p :
  is_supported_format p = true
  <-> exists suf pre, In suf supported_formats /\ Str.lower p = pre +:+ suf.
Proof. unfold is_supported_format. apply str_endswith_any_spec. Qed.

Lemma is_supported_format_of_ext p :
  In (Str.lower (snd (OsPath.splitext p))) supported_formats ->
  is_supported_format p = true.
Proof.
  intros Hin. apply is_supported_format_ending.
  exists (Str.lower (snd (OsPath.splitext p))), (Str.lower (fst (OsPath.splitext p))).
  split; [done|]. by rewrite <- str_lower_app, splitext_app.
Qed.

(** C5, as amended: a path is accepted exactly when its lowercased
    extension, as [os.path.splitext] gives it, is one of the seven
    supported ones, or when it has no extension and its lowercased text
    ends with one of the seven suffixes (a file name made of leading dots
    and a suffix, such as [.mp3]).  Every other path is rejected, and
    the check is a total boolean function: there is no error case. *)
Theorem is_supported_format_by_extension (p : string) :
  is_supported_format p = true
  <-> In (Str.lower (snd (OsPath.splitext p))) supported_formats
      \/ (snd (OsPath.splitext p) = ""
          /\ exists suf pre, In suf supported_formats /\ Str.lower p = pre +:+ suf).
Proof.
  split.
  - intros H. pose proof H as (suf & pre & Hin & Hp)%is_supported_format_ending.
    destruct (supported_formats_shape _ Hin) as (t & -> & Ht & _).
    destruct (splitext_ext_of_ending _ _ _ Hp Ht) as [He | He].
    + right. split; [done|]. eauto.
    + left. by rewrite He.
  - intros [H | [_ H]].
    + by apply is_supported_format_of_ext.
    + by apply is_supported_format_ending.
Qed.

(** C5, counterexample: the path [.mp3] is accepted although its
    extension is empty, so acceptance is not the same as having a
    supported extension. *)
Lemma is_supported_format_not_extension_only :
  ~ (forall p : string,
       is_supported_format p = true
       <-> In (Str.lower (snd (OsPath.splitext p))) supported_formats).
Proof.
  intros H. destruct (H ".mp3") as [H1 _].
  specialize (H1 eq_refl). vm_compute in H1.
  repeat (destruct H1 as [H1 | H1]; [discriminate H1|]). destruct H1.
Qed.

Lemma basename_eq p :
  exists head, p = head +:+ OsPath.basename p
               /\ Str.len head = Str.rfind OsPath.sep p + 1.
Proof.
  unfold OsPath.basename, Str.slice_from.
  pose proof (str_rfind_bounds OsPath.sep p) as Hb. unfold Str.len in Hb.
  exists (Str.take (Z.to_nat (Str.rfind OsPath.sep p + 1)) p). split.
  - by rewrite str_take_drop.
  - unfold Str.len. rewrite str_length_take; lia.
Qed.

(** C10: the check looks at the end of the whole lowercased path: it
    accepts exactly the paths whose lowercased text is some prefix
    followed by one of the seven suffixes.  In particular a path whose
    last component is nothing but a suffix is accepted, although
    [os.path.splitext] finds no extension in it. *)
Theorem is_supported_format_whole_path (p : string) :
  (is_supported_format p = true
   <-> exists suf pre, In suf supported_formats /\ Str.lower p = pre +:+ suf)
  /\ (In (Str.lower (OsPath.basename p)) supported_formats ->
      is_supported_format p = true /\ snd (OsPath.splitext p) = "").
Proof.
  split; [apply is_supported_format_ending|].
  intros Hin. destruct (basename_eq p) as (head & Hp & Hlen).
  split.
  - apply is_supported_format_ending.
    exists (Str.lower (OsPath.basename p)), (Str.lower head).
    split; [done|]. by rewrite <- str_lower_app, <- Hp.
  - destruct (supported_formats_shape _ Hin) as (t & Ht & Hdot & _).
    destruct (OsPath.basename p) as [|b T] eqn:Hb; [discriminate Ht|].
    simpl in Ht. injection Ht as Hc Hl.
    apply (proj1 (lower_stable_extsep b)) in Hc. subst b t.
    rewrite str_contains_lower in Hdot by apply lower_stable_extsep.
    unfold OsPath.splitext.
    assert (Str.rfind OsPath.extsep p = Str.rfind OsPath.sep p + 1) as ->.
    { rewrite Hp at 1. rewrite str_rfind_app_last by done. exact Hlen. }
    unfold Str.slice.
    replace (Z.to_nat (_ + 1 - (_ + 1))) with 0%nat by lia.
    simpl. by rewrite andb_false_r.
Qed.

Lemma is_supported_format_whole_path_witness :
  In (Str.lower (OsPath.basename "dir/.MP3")) supported_formats
  /\ is_supported_format "dir/.MP3" = true
  /\ snd (OsPath.splitext "dir/.MP3") = "".
Proof.
  assert (In (Str.lower (OsPath.basename "dir/.MP3")) supported_formats) as H
    by (vm_compute; auto).
  split; [exact H|].
  exact (proj2 (is_supported_format_whole_path "dir/.MP3") H).
Defined.

(** ** Timestamps and output file names *)

Lemma fmt_is_digit_digit n : Fmt.is_digit (Fmt.digit n) = true.
Proof.
  unfold Fmt.digit.
  assert (0 <= n mod 10 < 10) as H by (apply Z.mod_pos_bound; lia).
  assert (exists k, (k < 10)%nat /\ Z.to_nat (48 + n mod 10) = (48 + k)%nat) as (k & Hk & ->).
  { exists (Z.to_nat (n mod 10)). lia. }
  do 10 (destruct k as [|k]; [reflexivity|]). lia.
Qed.

Local Ltac div_lia := Z.div_mod_to_equations; lia.
Local Ltac ltb_true e := replace e with true by (symmetry; apply Z.ltb_lt; div_lia).
Local Ltac ltb_false e := replace e with false by (symmetry; apply Z.ltb_ge; div_lia).

Lemma fmt_decimal_1digit n : 0 <= n < 10 -> Fmt.decimal n = String (Fmt.digit n) "".
Proof.
  intros H. unfold Fmt.decimal. cbn [Fmt.decimal_go].
  by ltb_true (n <? 10).
Qed.

Lemma fmt_decimal_2digits n :
  10 <= n < 100 ->
  Fmt.decimal n = String (Fmt.digit (n / 10)) (String (Fmt.digit n) "").
Proof.
  intros H. unfold Fmt.decimal.
  destruct (Z.to_nat n) as [|k] eqn:E; [lia|]. cbn [Fmt.decimal_go].
  ltb_false (n <? 10).
  by ltb_true (n / 10 <? 10).
Qed.

Lemma fmt_decimal_4digits n :
  1000 <= n <= 9999 ->
  Fmt.decimal n =
    String (Fmt.digit (n / 1000)) (String (Fmt.digit (n / 100))
      (String (Fmt.digit (n / 10)) (String (Fmt.digit n) ""))).
Proof.
  intros H. unfold Fmt.decimal.
  destruct (Z.to_nat n) as [|[|[|k]]] eqn:E; [lia..|]. cbn [Fmt.decimal_go].
  ltb_false (n <? 10).
  ltb_false (n / 10 <? 10).
  ltb_false (n / 10 / 10 <? 10).
  ltb_true (n / 10 / 10 / 10 <? 10).
  replace (n / 10 / 10 / 10) with (n / 1000) by div_lia.
  by replace (n / 10 / 10) with (n / 100) by div_lia.
Qed.

(** A field below one hundred prints as two digits. *)
Lemma fmt_zfill2 n :
  0 <= n < 100 ->
  Fmt.zfill 2 (Fmt.decimal n) = String (Fmt.digit (n / 10)) (String (Fmt.digit n) "").
Proof.
  intros H. destruct (Z_lt_ge_dec n 10) as [Hlt | Hge].
  - rewrite fmt_decimal_1digit by lia.
    replace (n / 10) with 0 by div_lia. reflexivity.
  - rewrite fmt_decimal_2digits by lia. reflexivity.
Qed.

Lemma fmt_strftime_unfold t :
  Fmt.strftime "%Y%m%d_%H%M%S" t =
    Fmt.decimal (year t) +:+ Fmt.zfill 2 (Fmt.decimal (month t))
    +:+ Fmt.zfill 2 (Fmt.decimal (day t))
    +:+ String "_" (Fmt.zfill 2 (Fmt.decimal (hour t))
    +:+ Fmt.zfill 2 (Fmt.decimal (minute t))
    +:+ Fmt.zfill 2 (Fmt.decimal (second t)) +:+ "").
Proof. reflexivity. Qed.

(** In a four-digit year the format of the program prints the clock
    reading as [YYYYMMDD_HHMMSS]. *)
Lemma fmt_strftime_stamp t :
  valid_datetime t -> 1000 <= year t ->
  Fmt.strftime "%Y%m%d_%H%M%S" t = stamp_YYYYMMDD_HHMMSS t.
Proof.
  intros (Hy & Hm & Hd & HH & HM & HS) Hy'.
  rewrite fmt_strftime_unfold.
  rewrite fmt_decimal_4digits by lia.
  rewrite !fmt_zfill2 by lia. reflexivity.
Qed.

Lemma is_stamp_stamp t : is_stamp (stamp_YYYYMMDD_HHMMSS t) = true.
Proof.
  unfold stamp_YYYYMMDD_HHMMSS, is_stamp. cbn [forallb].
  rewrite !fmt_is_digit_digit. reflexivity.
Qed.

(** ** Running computations *)

Lemma run_bind {A B} (m : M A) (k : A -> M B) w :
  (m ≫= k) w =
    match m w with
    | (Return a, w') => k a w'
    | (Raise e, w') => (Raise e, w')
    | (SystemExit c, w') => (SystemExit c, w')
    end.
Proof. reflexivity. Qed.

Lemma run_bind_return {A B} (m : M A) (k : A -> M B) w a w' :
  m w = (Return a, w') -> (m ≫= k) w = k a w'.
Proof. intros H. by rewrite run_bind, H. Qed.

Lemma run_bind_raise {A B} (m : M A) (k : A -> M B) w e w' :
  m w = (Raise e, w') -> (m ≫= k) w = (Raise e, w').
Proof. intros H. by rewrite run_bind, H. Qed.

Lemma with_events_app w evs1 evs2 :
  with_events (with_events w evs1) evs2 = with_events w (evs1 ++ evs2).
Proof. unfold with_events. simpl. by rewrite app_assoc. Qed.

Lemma with_events_nil w : with_events w [] = w.
Proof. destruct w. unfold with_events. simpl. by rewrite app_nil_r. Qed.

Lemma chat_requests_app evs1 evs2 :
  chat_requests (evs1 ++ evs2) = chat_requests evs1 ++ chat_requests evs2.
Proof.
  induction evs1 as [|[] evs1 IH]; simpl; try done. by rewrite IH.
Qed.

Lemma run_logging_info msg w :
  logging_info msg w = (Return tt, with_events w [Logged INFO msg]).
Proof. reflexivity. Qed.

Lemma run_logging_error msg w :
  logging_error msg w = (Return tt, with_events w [Logged ERROR msg]).
Proof. reflexivity. Qed.

Lemma run_logging_debug msg w : logging_debug msg w = (Return tt, w).
Proof. reflexivity. Qed.

Lemma run_generate_output_filename env base suffix ext w :
  generate_output_filename env base suffix ext w =
    (Return (base +:+ "_" +:+ suffix +:+ "_"
             +:+ Fmt.strftime "%Y%m%d_%H%M%S" (clock env (ticks w))
             +:+ "." +:+ ext),
     ticked w).
Proof. reflexivity. Qed.

(** C6: at a clock reading in a four-digit year,
    [generate_output_filename] returns
    [base_suffix_YYYYMMDD_HHMMSS.extension]: the base name, the suffix
    and the timestamp joined by underscores, a dot and the extension,
    where the timestamp is the reading of the wall clock taken by the
    call, printed as eight digits, an underscore and six digits. *)
Theorem generate_output_filename_pattern
    (env : environ) (base suffix ext : string) (w : world) :
  valid_datetime (clock env (ticks w)) ->
  1000 <= year (clock env (ticks w)) ->
  exists ts,
    fst (generate_output_filename env base suffix ext w)
      = Return (base +:+ "_" +:+ suffix +:+ "_" +:+ ts +:+ "." +:+ ext)
    /\ ts = stamp_YYYYMMDD_HHMMSS (clock env (ticks w))
    /\ is_stamp ts = true.
Proof.
  intros Hv Hy. exists (stamp_YYYYMMDD_HHMMSS (clock env (ticks w))).
  rewrite run_generate_output_filename. cbn [fst].
  rewrite fmt_strftime_stamp by done.
  split; [done|]. split; [done|]. apply is_stamp_stamp.
Qed.

Lemma generate_output_filename_pattern_witness :
  (valid_datetime (clock speech_env (ticks speech_world))
   /\ 1000 <= year (clock speech_env (ticks speech_world)))
  /\ fst (generate_output_filename speech_env "speech" "summary" "txt" speech_world)
     = Return "speech_summary_20240307_090500.txt".
Proof.
  assert (valid_datetime (clock speech_env (ticks speech_world))) as Hv
    by (unfold valid_datetime; simpl; lia).
  assert (1000 <= year (clock speech_env (ticks speech_world))) as Hy
    by (simpl; lia).
  split; [by split|].
  destruct (generate_output_filename_pattern speech_env "speech" "summary" "txt"
              speech_world Hv Hy) as (ts & H & -> & _).
  exact H.
Defined.

(** ** The summarisation service *)

Local Ltac run_unfold :=
  unfold try_except, lift, raise, sys_exit, emit, logging_error, logging_info,
    logging_debug, logging_log, mbind, M_bind, bind, mret, M_ret, ret in *.

(** Whatever the service answers, [summarize_text] returns a string
    after one request, which is followed by log records only. *)
Lemma summarize_text_returns env self text w :
  exists s logs,
    summarize_text env self text w
      = (Return s, with_events w (ChatRequested (summary_request text) :: logs))
    /\ forallb is_log logs = true.
Proof.
  unfold summarize_text, openai_ChatCompletion_create. run_unfold.
  destruct (chat_completion_create env (summary_request text)) as [e|response];
    [eexists _, [_]; simpl; rewrite with_events_app; split; reflexivity|].
  destruct (Py.getitem_str response "choices") as [e|choices];
    [eexists _, [_]; simpl; rewrite with_events_app; split; reflexivity|].
  destruct (Py.getitem_0 choices) as [e|choice];
    [eexists _, [_]; simpl; rewrite with_events_app; split; reflexivity|].
  destruct (Py.getitem_str choice "message") as [e|msg];
    [eexists _, [_]; simpl; rewrite with_events_app; split; reflexivity|].
  destruct (Py.getitem_str msg "content") as [e|body];
    [eexists _, [_]; simpl; rewrite with_events_app; split; reflexivity|].
  destruct (Py.strip body) as [e|summary];
    [eexists _, [_]; simpl; rewrite with_events_app; split; reflexivity|].
  eexists _, []. simpl. split; reflexivity.
Qed.

(** C2: when the chat-completion call raises an exception,
    [summarize_text] logs it and returns the empty string; nothing is
    raised to the caller. *)
Theorem summarize_text_failure
    (env : environ) (self : AudioProcessor) (text : string) (w : world) (e : exn) :
  chat_completion_create env (summary_request text) = inl e ->
  summarize_text env self text w
    = (Return "",
       with_events w
         [ChatRequested (summary_request text);
          Logged ERROR ("Error summarizing text: " +:+ exn_str e)]).
Proof.
  intros H. unfold summarize_text, openai_ChatCompletion_create. run_unfold. rewrite H. simpl.
  by rewrite with_events_app.
Qed.

Lemma summarize_text_failure_witness :
  chat_completion_create offline_env (summary_request "hello world")
    = inl (Exn "APIConnectionError" "connection refused")
  /\ fst (summarize_text offline_env {| model_name := "base" |} "hello world" speech_world)
     = Return "".
Proof.
  split; [reflexivity|].
  by rewrite (summarize_text_failure offline_env {| model_name := "base" |}
                "hello world" speech_world
                (Exn "APIConnectionError" "connection refused") eq_refl).
Defined.

(** C9: for every text, [summarize_text] sends one chat-completion
    request and no other: its model is [gpt-4], its system message is
    the fixed instruction, its user message is the fixed prefix followed
    by the whole text, and its [max_tokens] is 800.  It is on this very
    request that the service is consulted: a service that answers it
    alike gives the same run whatever it answers to other requests, and
    what the service answers to it is what comes back (the stripped
    content of a well-formed response, a logged error otherwise).  The
    text is embedded as it is, neither cut nor split: the user message
    that was sent is the 30 characters of the prefix followed by the
    text. *)
Theorem summarize_text_one_request
    (env : environ) (self : AudioProcessor) (text : string) (w : world) :
  let request :=
    {| model := "gpt-4";
       messages :=
         [ {| role := "system";
              content := "You are an assistant that summarizes texts." |};
           {| role := "user";
              content := "Summarize the following text: " +:+ text |} ];
       max_tokens := 800 |} in
  let sent := chat_requests (events (snd (summarize_text env self text w))) in
  sent = chat_requests (events w) ++ [request]
  /\ (exists s, fst (summarize_text env self text w) = Return s)
  /\ (forall env' : environ,
        chat_completion_create env' request = chat_completion_create env request ->
        summarize_text env' self text w = summarize_text env self text w)
  /\ (forall s : string,
        chat_completion_create env request = inr (response_with s) ->
        summarize_text env self text w
          = (Return (Str.strip s), with_events w [ChatRequested request]))
  /\ (forall e : exn,
        chat_completion_create env request = inl e ->
        summarize_text env self text w
          = (Return "",
             with_events w
               [ChatRequested request;
                Logged ERROR ("Error summarizing text: " +:+ exn_str e)]))
  /\ (forall req : chat_request,
        last sent = Some req ->
        exists sys usr,
          messages req = [sys; usr]
          /\ role usr = "user"
          /\ Str.slice_to 30 (content usr) = "Summarize the following text: "
          /\ Str.slice_from 30 (content usr) = text
          /\ Str.len (content usr) = 30 + Str.len text).
Proof.
  intros request sent.
  assert (sent = chat_requests (events w) ++ [request]) as Hsent.
  { subst sent.
    destruct (summarize_text_returns env self text w) as (s & logs & -> & Hlogs).
    simpl. rewrite chat_requests_app. f_equal. simpl. f_equal.
    clear -Hlogs. induction logs as [|[] logs IH]; simpl in *; try done. auto. }
  split; [exact Hsent|]. split; [|split; [|split; [|split]]].
  - destruct (summarize_text_returns env self text w) as (s & logs & -> & _).
    by exists s.
  - intros env' Hsame.
    unfold summarize_text, openai_ChatCompletion_create. run_unfold.
    change (summary_request text) with request. by rewrite Hsame.
  - intros s Hs.
    unfold summarize_text, openai_ChatCompletion_create. run_unfold.
    change (summary_request text) with request. by rewrite Hs.
  - intros e He.
    unfold summarize_text, openai_ChatCompletion_create. run_unfold.
    change (summary_request text) with request. rewrite He. simpl.
    by rewrite with_events_app.
  - intros req. rewrite Hsent, last_snoc. intros [= <-].
    eexists _, _. split; [reflexivity|]. split; [reflexivity|]. simpl content.
    split; [exact (str_take_app_length "Summarize the following text: " text)|].
    split; [exact (str_drop_app_length "Summarize the following text: " text)|].
    rewrite str_len_app. reflexivity.
Qed.

(** With a service that echoes the user message, what comes back is
    the prefix followed by the whole text: all of it went out. *)
Lemma summarize_text_one_request_witness :
  let text := "a transcript that is longer than ten characters" in
  chat_completion_create echo_env (summary_request text)
    = inr (response_with ("Summarize the following text: " +:+ text))
  /\ summarize_text echo_env {| model_name := "base" |} text speech_world
     = (Return ("Summarize the following text: " +:+ text),
        with_events speech_world [ChatRequested (summary_request text)])
  /\ chat_completion_create offline_env (summary_request text)
     = inl (Exn "APIConnectionError" "connection refused")
  /\ fst (summarize_text offline_env {| model_name := "base" |} text speech_world)
     = Return "".
Proof.
  intros text.
  assert (chat_completion_create echo_env (summary_request text)
          = inr (response_with ("Summarize the following text: " +:+ text))) as Hecho
    by reflexivity.
  assert (chat_completion_create offline_env (summary_request text)
          = inl (Exn "APIConnectionError" "connection refused")) as Hoff
    by reflexivity.
  split; [exact Hecho|]. split; [|split; [exact Hoff|]].
  - destruct (summarize_text_one_request echo_env {| model_name := "base" |} text
                speech_world) as (_ & _ & _ & Hanswer & _).
    exact (Hanswer _ Hecho).
  - destruct (summarize_text_one_request offline_env {| model_name := "base" |} text
                speech_world) as (_ & _ & _ & _ & Herr & _).
    by rewrite (Herr _ Hoff).
Defined.

(** ** Start-up and validation *)

(** C4: when the API key is unset or empty the script logs an error
    and exits with status 1.  That log record is all it does: the
    file tree is as it was, the input was not looked at, no model was
    loaded and nothing was transcribed or written. *)
Theorem script_without_api_key (env : environ) (w : world) :
  env_api_key env = None \/ env_api_key env = Some "" ->
  script env w
    = (SystemExit 1, with_events w [Logged ERROR "OpenAI API key is not set."])
  /\ exit_status (fst (script env w)) <> 0.
Proof.
  intros H. assert (not_api_key (env_api_key env) = true) as Hk.
  { by destruct H as [-> | ->]. }
  assert (script env w
          = (SystemExit 1, with_events w [Logged ERROR "OpenAI API key is not set."]))
    as Hs.
  { unfold script. run_unfold. by rewrite Hk. }
  split; [exact Hs|]. by rewrite Hs.
Qed.

Lemma script_without_api_key_witness :
  (env_api_key no_key_env = None \/ env_api_key no_key_env = Some "")
  /\ fst (script no_key_env speech_world) = SystemExit 1
  /\ files (snd (script no_key_env speech_world)) = files speech_world.
Proof.
  assert (env_api_key no_key_env = None \/ env_api_key no_key_env = Some "") as H
    by (left; reflexivity).
  split; [exact H|].
  destruct (script_without_api_key no_key_env speech_world H) as [-> _].
  split; reflexivity.
Defined.

Lemma run_main_rejects env w :
  Fs.exists_ w (env_file_path env) = false
  \/ is_supported_format (env_file_path env) = false ->
  exists msg, main env w = (Return tt, with_events w [Logged ERROR msg]).
Proof.
  intros H. unfold main, parse_arguments, os_path_exists, get_world.
  run_unfold. cbv beta iota.
  destruct (Fs.exists_ w (env_file_path env)) eqn:Hex; simpl.
  - destruct H as [H | H]; [done|]. rewrite H. simpl. eauto.
  - eauto.
Qed.

(** C3: when the input path does not exist or its format is not
    supported, [main] logs one error and returns.  Nothing else happens:
    the file tree is unchanged, so no output file is written, and the
    speech model is not loaded.  The script then ends normally, with exit
    status 0. *)
Theorem main_validation_failure (env : environ) (w : world) :
  Fs.exists_ w (env_file_path env) = false
  \/ is_supported_format (env_file_path env) = false ->
  (exists msg, main env w = (Return tt, with_events w [Logged ERROR msg]))
  /\ (not_api_key (env_api_key env) = false ->
      exit_status (fst (script env w)) = 0
      /\ exists msg,
           snd (script env w)
             = with_events (with_api_key w (env_api_key env)) [Logged ERROR msg]).
Proof.
  intros H. split; [by apply run_main_rejects|].
  intros Hk. unfold script, set_openai_api_key. rewrite Hk. run_unfold.
  cbv beta iota.
  destruct (run_main_rejects env (with_api_key w (env_api_key env)) H)
    as (msg & ->).
  simpl. eauto.
Qed.

Lemma main_validation_failure_witness :
  (Fs.exists_ speech_world (env_file_path missing_env) = false
   \/ is_supported_format (env_file_path missing_env) = false)
  /\ not_api_key (env_api_key missing_env) = false
  /\ exit_status (fst (script missing_env speech_world)) = 0
  /\ files (snd (main missing_env speech_world)) = files speech_world.
Proof.
  assert (Fs.exists_ speech_world (env_file_path missing_env) = false
          \/ is_supported_format (env_file_path missing_env) = false) as H
    by (left; vm_compute; reflexivity).
  assert (not_api_key (env_api_key missing_env) = false) as Hk by reflexivity.
  split; [exact H|]. split; [exact Hk|].
  destruct (main_validation_failure missing_env speech_world H) as [[msg Hm] Hs].
  split; [exact (proj1 (Hs Hk))|]. by rewrite Hm.
Defined.

(** ** Paths and nodes *)

Lemma fields_not_nil p : Fs.fields p <> [].
Proof.
  destruct p as [|a p]; simpl; [done|].
  case_bool_decide; [done|]. by destruct (Fs.fields p).
Qed.

Lemma fields_app_sep a b :
  Fs.fields (a +:+ String OsPath.sep b) = Fs.fields a ++ Fs.fields b.
Proof.
  induction a as [|c a IH]; [done|].
  rewrite str_app_cons. simpl. rewrite IH. case_bool_decide; [done|].
  pose proof (fields_not_nil a). by destruct (Fs.fields a).
Qed.

Lemma fields_plain f : Str.contains OsPath.sep f = false -> Fs.fields f = [f].
Proof.
  induction f as [|c f IH]; simpl; [done|].
  intros [Hc Hf]%orb_false_iff. rewrite Hc, (IH Hf). done.
Qed.

Lemma startswith_sep_plain f :
  Str.contains OsPath.sep f = false -> Str.startswith f "/" = false.
Proof.
  destruct f as [|c f]; simpl; [done|].
  intros [Hc _]%orb_false_iff. unfold OsPath.sep in Hc. by rewrite Hc.
Qed.

Lemma startswith_sep_app s t :
  s <> "" -> Str.startswith (s +:+ t) "/" = Str.startswith s "/".
Proof. intros Hs. destruct s as [|c s]; [done|]. by rewrite str_app_cons. Qed.

Lemma components_app_sep a b :
  Fs.components (a +:+ String OsPath.sep b) = Fs.components a ++ Fs.components b.
Proof. unfold Fs.components. by rewrite fields_app_sep, filter_app. Qed.

Lemma components_plain f : plain_name f -> Fs.components f = [f].
Proof.
  intros (Hs & Hne & Hdot). unfold Fs.components.
  rewrite (fields_plain _ Hs). by rewrite filter_cons_True, filter_nil.
Qed.

(** The three ways [join] can glue a plain name to a directory. *)
Lemma join_plain_cases dir f :
  plain_name f ->
  (dir = "" /\ OsPath.join dir f = f)
  \/ (exists pre, dir = pre +:+ String OsPath.sep ""
                  /\ OsPath.join dir f = pre +:+ String OsPath.sep f)
  \/ (dir <> "" /\ OsPath.join dir f = dir +:+ String OsPath.sep f).
Proof.
  intros (Hs & _). unfold OsPath.join.
  rewrite (startswith_sep_plain _ Hs).
  case_bool_decide as Hd; simpl.
  - left. by subst.
  - destruct (Str.endswith dir "/") eqn:He.
    + right; left. apply str_endswith_spec in He as [pre ->].
      exists pre. split; [done|]. by rewrite str_app_assoc.
    + right; right. done.
Qed.

Lemma resolve_join_plain dir f :
  plain_name f -> Fs.resolve (OsPath.join dir f) = Fs.resolve dir ++ [f].
Proof.
  intros Hf. pose proof (components_plain _ Hf) as Hc.
  destruct (join_plain_cases dir f Hf) as [[-> ->] | [(pre & -> & ->) | [Hd ->]]];
    unfold Fs.resolve.
  - rewrite Hc. destruct Hf as (Hs & _). by rewrite (startswith_sep_plain _ Hs).
  - rewrite !components_app_sep, Hc.
    replace (Fs.components "") with (@nil string) by done.
    rewrite app_nil_r, app_assoc. f_equal.
    destruct pre as [|c pre]; [done|]. by rewrite !str_app_cons.
  - rewrite components_app_sep, Hc, app_assoc. f_equal.
    by rewrite startswith_sep_app.
Qed.

Lemma wants_dir_join_plain dir f :
  plain_name f -> Fs.wants_dir (OsPath.join dir f) = false.
Proof.
  intros Hf. pose proof Hf as (Hs & Hne & _). unfold Fs.wants_dir.
  apply bool_decide_eq_false. intros Hl.
  destruct (join_plain_cases dir f Hf) as [[_ E] | [(pre & _ & E) | [_ E]]];
    rewrite E in Hl; rewrite ?fields_app_sep, (fields_plain _ Hs) in Hl;
    rewrite ?last_snoc in Hl; simpl in Hl; congruence.
Qed.

Lemma join_plain_nonempty dir f : plain_name f -> OsPath.join dir f <> "".
Proof.
  intros Hf. pose proof Hf as (_ & Hne & _).
  destruct (join_plain_cases dir f Hf) as [[_ E] | [(pre & _ & E) | [_ E]]];
    rewrite E; [done| |].
  - by destruct pre.
  - by destruct dir.
Qed.

Lemma parent_snoc (k : node) (f : string) : Fs.parent (k ++ [f]) = k.
Proof. unfold Fs.parent. apply removelast_last. Qed.

(** ** Directories *)

Lemma is_dir_node_mono w w' k :
  dirs w ⊆ dirs w' -> Fs.is_dir_node w k = true -> Fs.is_dir_node w' k = true.
Proof.
  unfold Fs.is_dir_node. intros Hsub.
  rewrite !orb_true_iff, !bool_decide_eq_true. set_solver.
Qed.

Lemma dirs_grown_refl ks w : dirs_grown ks w w.
Proof.
  repeat split; try done; [set_solver|]. exists []. by rewrite app_nil_r.
Qed.

Lemma run_ensure_dir_present env k w :
  Fs.is_dir_node w k = true -> ensure_dir env k w = (Return tt, w).
Proof.
  intros H. unfold ensure_dir, get_world. run_unfold. cbv beta iota. by rewrite H.
Qed.

Lemma run_ensure_dir_new env k w :
  Fs.is_dir_node w k = false -> Fs.is_file_node w k = false ->
  os_fault env (SysMkdir k) = None ->
  ensure_dir env k w
    = (Return tt, with_events (with_dirs w ({[k]} ∪ dirs w)) [DirCreated k]).
Proof.
  intros H1 H2 H3. unfold ensure_dir, get_world, syscall_gate, set_dirs.
  run_unfold. cbv beta iota. by rewrite H1, H2, H3.
Qed.

Lemma run_ensure_dirs_present env ks w :
  (forall k, k ∈ ks -> Fs.is_dir_node w k = true) ->
  ensure_dirs env ks w = (Return tt, w).
Proof.
  induction ks as [|k ks IH]; intros H; [done|]. simpl.
  rewrite (run_bind_return _ _ _ _ _ (run_ensure_dir_present env k w
             (H k ltac:(set_solver)))).
  apply IH. intros k' Hk'. apply H. set_solver.
Qed.

Lemma run_ensure_dirs env ks w :
  forallb
    (fun k => Fs.is_dir_node w k
              || (negb (Fs.is_file_node w k)
                  && bool_decide (os_fault env (SysMkdir k) = None))) ks = true ->
  exists w',
    ensure_dirs env ks w = (Return tt, w')
    /\ dirs_grown ks w w'
    /\ (forall k, k ∈ ks -> Fs.is_dir_node w' k = true).
Proof.
  revert w. induction ks as [|k ks IH]; intros w Hall.
  { exists w. split; [done|]. split; [apply dirs_grown_refl|]. set_solver. }
  simpl in Hall. apply andb_true_iff in Hall as [Hk Hall].
  assert (exists w1,
             ensure_dir env k w = (Return tt, w1)
             /\ dirs_grown [k] w w1 /\ Fs.is_dir_node w1 k = true)
    as (w1 & Hrun & Hg & Hd).
  { destruct (Fs.is_dir_node w k) eqn:Hdir.
    - exists w. split; [by apply run_ensure_dir_present|].
      split; [apply dirs_grown_refl|done].
    - simpl in Hk. apply andb_true_iff in Hk as [Hf Hos].
      apply negb_true_iff in Hf. apply bool_decide_eq_true in Hos.
      eexists. split; [by apply run_ensure_dir_new|]. split.
      + repeat split; simpl; try done; [set_solver|set_solver|].
        by exists [DirCreated k].
      + unfold Fs.is_dir_node. simpl. rewrite !orb_true_iff, !bool_decide_eq_true.
        set_solver. }
  destruct Hg as (Hfiles & Hticks & Hkey & Hsub & Hnew & evs1 & Hev1 & Hfs1).
  destruct (IH w1) as (w' & Hrun' & Hg' & Hd').
  { apply forallb_forall. intros k' Hin.
    rewrite forallb_forall in Hall. specialize (Hall k' Hin).
    apply orb_true_iff in Hall as [Hall | Hall]; apply orb_true_iff.
    - left. by eapply is_dir_node_mono.
    - destruct (Fs.is_dir_node w1 k'); [by left|right].
      unfold Fs.is_file_node in *. by rewrite Hfiles. }
  destruct Hg' as (Hfiles' & Hticks' & Hkey' & Hsub' & Hnew' & evs2 & Hev2 & Hfs2).
  exists w'. split; [|split].
  - simpl. by rewrite (run_bind_return _ _ _ _ _ Hrun).
  - repeat split; try congruence; [set_solver| |].
    + intros k' Hk'. destruct (Hnew' k' Hk') as [H1 | H1]; [|set_solver].
      destruct (Hnew k' H1); set_solver.
    + exists (evs1 ++ evs2). rewrite Hev2, Hev1, app_assoc. split; [done|].
      by rewrite forallb_app, Hfs1, Hfs2.
  - intros k' [-> | Hk']%elem_of_cons; [|by apply Hd'].
    by eapply is_dir_node_mono.
Qed.

Lemma chain_last pre rest :
  rest <> [] -> pre ++ rest ∈ Fs.chain pre rest.
Proof.
  revert pre. induction rest as [|c rest IH]; intros pre Hne; [done|]. simpl.
  destruct rest as [|c' rest].
  - set_solver.
  - apply elem_of_cons. right.
    replace (pre ++ c :: c' :: rest) with ((pre ++ [c]) ++ c' :: rest)
      by (by rewrite <- app_assoc).
    by apply IH.
Qed.

Lemma is_dir_node_of_chain w (k : node) :
  (forall k', k' ∈ Fs.chain [] k -> Fs.is_dir_node w k' = true) ->
  Fs.is_dir_node w k = true.
Proof.
  intros H. destruct k as [|c k]; [done|].
  apply H. by apply (chain_last [] (c :: k)).
Qed.

Lemma run_os_makedirs_exist_ok env name w :
  name <> "" ->
  os_makedirs env name true w = ensure_dirs env (Fs.chain [] (Fs.resolve name)) w.
Proof.
  intros Hne. unfold os_makedirs, get_world. run_unfold. cbv beta iota.
  rewrite bool_decide_eq_false_2 by done. by rewrite andb_false_r.
Qed.

Lemma run_FileWriter_init env dir w :
  can_makedirs env w dir = true ->
  exists w',
    FileWriter_init env dir w = (Return {| directory := dir |}, w')
    /\ dirs_grown (Fs.chain [] (Fs.resolve dir)) w w'
    /\ (forall k, k ∈ Fs.chain [] (Fs.resolve dir) -> Fs.is_dir_node w' k = true).
Proof.
  unfold can_makedirs. intros [Hne Hall]%andb_true_iff.
  apply negb_true_iff, bool_decide_eq_false in Hne.
  destruct (run_ensure_dirs env _ w Hall) as (w' & Hrun & Hg & Hd).
  exists w'. split; [|done].
  unfold FileWriter_init, ensure_directory_exists. simpl directory.
  erewrite run_bind_return; [reflexivity|].
  by rewrite run_os_makedirs_exist_ok.
Qed.

Lemma run_FileWriter_init_present env dir w :
  dir <> "" ->
  (forall k, k ∈ Fs.chain [] (Fs.resolve dir) -> Fs.is_dir_node w k = true) ->
  FileWriter_init env dir w = (Return {| directory := dir |}, w).
Proof.
  intros Hne Hd. unfold FileWriter_init, ensure_directory_exists. simpl directory.
  erewrite run_bind_return; [reflexivity|].
  rewrite run_os_makedirs_exist_ok by done. by apply run_ensure_dirs_present.
Qed.

(** ** Writing a file *)

Lemma run_open_w_write env p text w :
  can_write env w p = true ->
  open_w_write env p text w
    = (Return tt,
       with_events (with_files w (<[Fs.resolve p := text]> (files w)))
         [FileOpened (Fs.resolve p); FileWritten (Fs.resolve p) text]).
Proof.
  unfold can_write. rewrite !andb_true_iff, !negb_true_iff, !bool_decide_eq_true.
  intros ((((Hne & Hnd) & Hpar) & Ho) & Hw).
  unfold open_w_write, get_world, syscall_gate, set_files. run_unfold.
  cbv beta iota zeta. rewrite Hne, Hnd, Hpar, Ho. simpl. rewrite Hw.
  unfold with_events, with_files. simpl. by rewrite <- app_assoc.
Qed.

Lemma run_write_to_file env dir filename text w :
  can_write env w (OsPath.join dir filename) = true ->
  write_to_file env {| directory := dir |} filename text w
    = (Return tt,
       with_events
         (with_files w (<[Fs.resolve (OsPath.join dir filename) := text]> (files w)))
         [FileOpened (Fs.resolve (OsPath.join dir filename));
          FileWritten (Fs.resolve (OsPath.join dir filename)) text;
          Logged INFO ("Content saved to " +:+ OsPath.join dir filename)]).
Proof.
  intros H. unfold write_to_file. simpl directory.
  rewrite (run_bind_return _ _ _ _ _ (run_open_w_write env _ text w H)).
  rewrite run_logging_info. by rewrite with_events_app.
Qed.

Lemma read_after_write w p text evs :
  p <> "" -> Fs.wants_dir p = false ->
  Fs.read (with_events (with_files w (<[Fs.resolve p := text]> (files w))) evs) p
    = Some text.
Proof.
  intros Hne Hwd. unfold Fs.read.
  rewrite bool_decide_eq_false_2, Hwd by done. simpl. apply lookup_insert_eq.
Qed.

(** C8: [FileWriter].  Constructed on a directory that can be made, it
    returns after making that directory and every missing directory on
    the way to it, leaving the files alone; constructing it again then
    changes nothing and raises nothing, and so does constructing it on a
    directory that is already there.  [write_to_file] on a file that can
    be written puts the file at [os.path.join(directory, filename)] with
    exactly the given text, which is what reading it back yields.  An
    error raised while the file is opened or written is raised by
    [write_to_file] to its caller. *)
Theorem FileWriter_contract
    (env : environ) (dir filename text : string) (w : world) :
  (can_makedirs env w dir = true ->
   exists w1,
     FileWriter_init env dir w = (Return {| directory := dir |}, w1)
     /\ Fs.isdir w1 dir = true
     /\ forallb (Fs.is_dir_node w1) (Fs.chain [] (Fs.resolve dir)) = true
     /\ files w1 = files w
     /\ dirs w ⊆ dirs w1
     /\ FileWriter_init env dir w1 = (Return {| directory := dir |}, w1))
  /\ (Fs.isdir w dir = true ->
      forallb (Fs.is_dir_node w) (Fs.chain [] (Fs.resolve dir)) = true ->
      FileWriter_init env dir w = (Return {| directory := dir |}, w))
  /\ (can_write env w (OsPath.join dir filename) = true ->
      exists w2,
        write_to_file env {| directory := dir |} filename text w = (Return tt, w2)
        /\ Fs.read w2 (OsPath.join dir filename) = Some text
        /\ files w2 = <[Fs.resolve (OsPath.join dir filename) := text]> (files w)
        /\ dirs w2 = dirs w)
  /\ (forall e w',
        open_w_write env (OsPath.join dir filename) text w = (Raise e, w') ->
        write_to_file env {| directory := dir |} filename text w = (Raise e, w')).
Proof.
  split; [|split; [|split]].
  - intros Hcan. pose proof Hcan as [Hne _]%andb_true_iff.
    apply negb_true_iff in Hne.
    destruct (run_FileWriter_init env dir w Hcan) as (w1 & Hrun & Hg & Hd).
    destruct Hg as (Hfiles & _ & _ & Hsub & _).
    exists w1. repeat split; try done.
    + unfold Fs.isdir. rewrite Hne. simpl. by apply is_dir_node_of_chain.
    + apply forallb_forall. intros k Hk. by apply Hd, list_elem_of_In.
    + apply run_FileWriter_init_present; [|done].
      by apply bool_decide_eq_false in Hne.
  - intros [Hne _]%andb_true_iff Hd.
    apply negb_true_iff, bool_decide_eq_false in Hne.
    apply run_FileWriter_init_present; [done|].
    intros k Hk. rewrite forallb_forall in Hd. by apply Hd, list_elem_of_In.
  - intros Hcan. eexists. split; [by apply run_write_to_file|].
    unfold can_write in Hcan.
    rewrite !andb_true_iff, !negb_true_iff, orb_false_iff in Hcan.
    destruct Hcan as ((((Hne & _ & Hwd) & _) & _) & _).
    apply bool_decide_eq_false in Hne.
    split; [by apply read_after_write|done].
  - intros e w' H. unfold write_to_file. simpl directory.
    by rewrite (run_bind_raise _ _ _ _ _ H).
Qed.

Lemma FileWriter_contract_witness :
  can_makedirs speech_env speech_world "out/text" = true
  /\ can_write speech_env (with_dirs speech_world {[ ["out"]; ["out"; "text"] ]})
       (OsPath.join "out/text" "a.txt") = true
  /\ (exists w1,
        FileWriter_init speech_env "out/text" speech_world
          = (Return {| directory := "out/text" |}, w1)
        /\ Fs.isdir w1 "out/text" = true)
  /\ FileWriter_init speech_env "out/text"
       (with_dirs speech_world {[ ["out"]; ["out"; "text"] ]})
     = (Return {| directory := "out/text" |},
        with_dirs speech_world {[ ["out"]; ["out"; "text"] ]})
  /\ (exists w2,
        write_to_file speech_env {| directory := "out/text" |} "a.txt" "hello"
          (with_dirs speech_world {[ ["out"]; ["out"; "text"] ]}) = (Return tt, w2)
        /\ Fs.read w2 "out/text/a.txt" = Some "hello")
  /\ fst (write_to_file readonly_env {| directory := "" |} "a.txt" "hello" speech_world)
     = Raise (Exn "PermissionError" "Permission denied").
Proof.
  assert (can_makedirs speech_env speech_world "out/text" = true) as H1
    by (vm_compute; reflexivity).
  assert (can_write speech_env (with_dirs speech_world {[ ["out"]; ["out"; "text"] ]})
            (OsPath.join "out/text" "a.txt") = true) as H2
    by (vm_compute; reflexivity).
  split; [exact H1|]. split; [exact H2|]. split; [|split; [|split]].
  - destruct (FileWriter_contract speech_env "out/text" "a.txt" "hello" speech_world)
      as (Ha & _).
    destruct (Ha H1) as (w1 & Hrun & Hdir & _). exists w1. by split.
  - destruct (FileWriter_contract speech_env "out/text" "a.txt" "hello"
                (with_dirs speech_world {[ ["out"]; ["out"; "text"] ]}))
      as (_ & Hb & _).
    apply Hb; vm_compute; reflexivity.
  - destruct (FileWriter_contract speech_env "out/text" "a.txt" "hello"
                (with_dirs speech_world {[ ["out"]; ["out"; "text"] ]}))
      as (_ & _ & Hc & _).
    destruct (Hc H2) as (w2 & Hrun & Hread & _). exists w2. by split.
  - destruct (FileWriter_contract readonly_env "" "a.txt" "hello" speech_world)
      as (_ & _ & _ & Hd).
    by rewrite (Hd (Exn "PermissionError" "Permission denied") speech_world eq_refl).
Defined.

(** ** Output file names are plain names *)

Lemma basename_plain p : Str.contains OsPath.sep (OsPath.basename p) = false.
Proof. apply str_contains_after_rfind. Qed.

Lemma splitext_root_plain b :
  Str.contains OsPath.sep b = false ->
  Str.contains OsPath.sep (fst (OsPath.splitext b)) = false.
Proof.
  intros H. unfold OsPath.splitext. destruct (_ && _); simpl; [|done].
  by apply str_contains_take.
Qed.

Lemma fmt_digit_not_sep n : bool_decide (Fmt.digit n = OsPath.sep) = false.
Proof.
  apply bool_decide_eq_false. intros H.
  pose proof (fmt_is_digit_digit n) as Hd. rewrite H in Hd. discriminate Hd.
Qed.

Lemma fmt_decimal_go_plain fuel n acc :
  Str.contains OsPath.sep acc = false ->
  Str.contains OsPath.sep (Fmt.decimal_go fuel n acc) = false.
Proof.
  revert n acc. induction fuel as [|fuel IH]; intros n acc Hacc; simpl; [done|].
  assert (Str.contains OsPath.sep (String (Fmt.digit n) acc) = false) as H.
  { simpl. by rewrite fmt_digit_not_sep, Hacc. }
  destruct (n <? 10); [done|]. by apply IH.
Qed.

Lemma fmt_zfill_plain w s :
  Str.contains OsPath.sep s = false ->
  Str.contains OsPath.sep (Fmt.zfill w s) = false.
Proof.
  intros H. unfold Fmt.zfill. induction (w - String.length s)%nat as [|k IH]; [done|].
  simpl. by rewrite IH.
Qed.

Lemma fmt_strftime_plain t :
  Str.contains OsPath.sep (Fmt.strftime "%Y%m%d_%H%M%S" t) = false.
Proof.
  rewrite fmt_strftime_unfold.
  repeat (rewrite ?str_contains_app; simpl Str.contains;
          rewrite ?fmt_zfill_plain by (by apply fmt_decimal_go_plain)).
  unfold Fmt.decimal. by rewrite fmt_decimal_go_plain.
Qed.

Lemma output_name_plain base suffix t ext :
  Str.contains OsPath.sep base = false ->
  Str.contains OsPath.sep suffix = false ->
  Str.contains OsPath.sep ext = false ->
  plain_name (base +:+ "_" +:+ suffix +:+ "_"
              +:+ Fmt.strftime "%Y%m%d_%H%M%S" t +:+ "." +:+ ext).
Proof.
  intros Hb Hs He. split; [|split].
  - rewrite !str_contains_app, Hb, Hs, He, fmt_strftime_plain. done.
  - destruct base; discriminate.
  - destruct base as [|c [|c' base]]; discriminate.
Qed.

Lemma resolve_plain d : plain_name d -> Fs.resolve d = [d].
Proof.
  intros Hd. pose proof Hd as (Hs & _). unfold Fs.resolve.
  by rewrite (startswith_sep_plain _ Hs), (components_plain _ Hd).
Qed.

Lemma can_makedirs_plain env w d :
  plain_name d -> Fs.is_file_node w [d] = false ->
  os_fault env (SysMkdir [d]) = None ->
  can_makedirs env w d = true.
Proof.
  intros Hd Hf Ho. pose proof Hd as (_ & Hne & _). unfold can_makedirs.
  rewrite (resolve_plain _ Hd). simpl.
  rewrite bool_decide_eq_false_2 by done.
  rewrite Hf, Ho. simpl. by rewrite orb_true_r.
Qed.

Lemma can_write_in_dir env w d name :
  plain_name name ->
  Fs.is_dir_node w (Fs.resolve d) = true ->
  Fs.is_dir_node w (Fs.resolve d ++ [name]) = false ->
  os_fault env (SysOpen (Fs.resolve d ++ [name])) = None ->
  os_fault env (SysWrite (Fs.resolve d ++ [name])) = None ->
  can_write env w (OsPath.join d name) = true.
Proof.
  intros Hn Hd Hk Ho Hw. unfold can_write.
  rewrite (resolve_join_plain _ _ Hn), parent_snoc, Hd, Hk, Ho, Hw.
  rewrite (wants_dir_join_plain _ _ Hn).
  rewrite bool_decide_eq_false_2 by (by apply join_plain_nonempty).
  by rewrite !bool_decide_eq_true_2.
Qed.

(** ** Persisting an artifact *)

Lemma chat_requests_fs_events evs :
  forallb is_fs_event evs = true -> chat_requests evs = [].
Proof. induction evs as [|[] evs IH]; simpl; try done. Qed.

(** The three steps with which [main] persists a text: the writer is
    made, the file name is generated and the file is written. *)
Lemma persist_steps env d base suffix text w :
  let name := filename_at (clock env (ticks w)) base suffix "txt" in
  plain_name d ->
  Str.contains OsPath.sep base = false ->
  Str.contains OsPath.sep suffix = false ->
  (forall c, os_fault env c = None) ->
  Fs.is_file_node w [d] = false ->
  Fs.is_dir_node w [d; name] = false ->
  exists w1 w2,
    FileWriter_init env d w = (Return {| directory := d |}, w1)
    /\ generate_output_filename env base suffix "txt" w1 = (Return name, ticked w1)
    /\ write_to_file env {| directory := d |} name text (ticked w1) = (Return tt, w2)
    /\ files w2 = <[ [d; name] := text ]> (files w)
    /\ Fs.read w2 (OsPath.join d name) = Some text
    /\ ticks w2 = S (ticks w)
    /\ openai_api_key w2 = openai_api_key w
    /\ dirs w ⊆ dirs w2
    /\ (forall k, k ∈ dirs w2 -> k ∈ dirs w \/ k = [d])
    /\ exists evs, events w2 = events w ++ evs /\ chat_requests evs = [].
Proof.
  intros name Hd Hb Hs Hos Hfile Hfree.
  assert (plain_name name) as Hname by (by apply output_name_plain).
  pose proof (resolve_plain _ Hd) as Hres.
  destruct (run_FileWriter_init env d w) as (w1 & Hinit & Hg & Hdir).
  { by apply can_makedirs_plain. }
  rewrite Hres in Hg, Hdir. simpl in Hg, Hdir.
  destruct Hg as (Hfiles & Hticks & Hkey & Hsub & Hnew & evs1 & Hev1 & Hfs1).
  assert (can_write env (ticked w1) (OsPath.join d name) = true) as Hcan.
  { apply can_write_in_dir; rewrite ?Hres; try done.
    - apply (Hdir [d]). set_solver.
    - unfold Fs.is_dir_node in *. simpl.
      rewrite !orb_false_iff, !bool_decide_eq_false in *.
      destruct Hfree as ((? & ?) & Hnot). repeat split; try done.
      intros [Hin | Hin%list_elem_of_singleton]%Hnew; [done|discriminate]. }
  exists w1. eexists. split; [exact Hinit|]. split.
  { rewrite run_generate_output_filename. by rewrite Hticks. }
  split; [by apply run_write_to_file|].
  pose proof (resolve_join_plain d name Hname) as Hk. rewrite Hres in Hk.
  simpl in Hk. simpl. rewrite Hk, Hfiles.
  repeat split; try done.
  - rewrite <- Hk, <- Hfiles.
    apply (read_after_write (ticked w1)); [by apply join_plain_nonempty|].
    by apply wants_dir_join_plain.
  - by rewrite Hticks.
  - intros k Hin. destruct (Hnew k Hin) as [?|?%list_elem_of_singleton]; auto.
  - eexists. rewrite Hev1, <- app_assoc. split; [done|].
    rewrite chat_requests_app, (chat_requests_fs_events _ Hfs1). done.
Qed.

(** ** The transcription service *)

Lemma run_transcribe_audio_failure env self path w e :
  whisper_transcribe env path = inl e ->
  transcribe_audio env self path w
    = (Return "",
       with_events w
         [Transcribed path; Logged ERROR ("Error transcribing audio: " +:+ exn_str e)]).
Proof.
  intros H. unfold transcribe_audio. run_unfold. rewrite H. simpl.
  by rewrite with_events_app.
Qed.

Lemma run_AudioProcessor_init env w :
  whisper_load_model env "base" = None ->
  AudioProcessor_init env w
    = (Return {| model_name := "base" |},
       with_events w
         [Logged INFO "Loading Whisper model..."; ModelLoaded "base";
          Logged INFO "Whisper model loaded."]).
Proof.
  intros H. unfold AudioProcessor_init. rewrite H. run_unfold. simpl.
  by rewrite !with_events_app.
Qed.

(** ** The pipeline *)

Local Ltac step H := rewrite (run_bind_return _ _ _ _ _ H); cbv beta.

(** C1: when [model.transcribe] raises an exception,
    [transcribe_audio] logs it and returns the empty string, raising
    nothing.  The pipeline goes on: on an input that passes validation,
    with the model loaded and a file tree that accepts the two output
    files, [main] returns normally after writing the transcript file
    (empty) in [audio_transcription] and the summary file in
    [audio_summarize], having asked for the summary of the empty text. *)
Theorem transcription_failure_is_absorbed (env : environ) (w : world) (e : exn) :
  let p := env_file_path env in
  let base := fst (OsPath.splitext (OsPath.basename p)) in
  let transcript := filename_at (clock env (ticks w)) base "transcription" "txt" in
  let summary_file := filename_at (clock env (S (ticks w))) base "summary" "txt" in
  whisper_transcribe env p = inl e ->
  (forall self w0,
     transcribe_audio env self p w0
       = (Return "",
          with_events w0
            [Transcribed p; Logged ERROR ("Error transcribing audio: " +:+ exn_str e)]))
  /\ (Fs.exists_ w p = true ->
      is_supported_format p = true ->
      whisper_load_model env "base" = None ->
      (forall c, os_fault env c = None) ->
      Fs.is_file_node w ["audio_transcription"] = false ->
      Fs.is_file_node w ["audio_summarize"] = false ->
      Fs.is_dir_node w ["audio_transcription"; transcript] = false ->
      Fs.is_dir_node w ["audio_summarize"; summary_file] = false ->
      exists w' summary,
        main env w = (Return tt, w')
        /\ files w'
           = <[ ["audio_summarize"; summary_file] := summary ]>
               (<[ ["audio_transcription"; transcript] := "" ]> (files w))
        /\ Fs.read w' (OsPath.join "audio_transcription" transcript) = Some ""
        /\ Fs.read w' (OsPath.join "audio_summarize" summary_file) = Some summary
        /\ chat_requests (events w')
           = chat_requests (events w) ++ [summary_request ""]).
Proof.
  intros p base transcript summary_file Hfail.
  split; [intros self w0; by apply run_transcribe_audio_failure|].
  intros Hex Hfmt Hload Hos Hf1 Hf2 Hd1 Hd2.
  assert (Str.contains OsPath.sep base = false) as Hbase.
  { apply splitext_root_plain, basename_plain. }
  assert (plain_name "audio_transcription") as Hp1 by (by repeat split).
  assert (plain_name "audio_summarize") as Hp2 by (by repeat split).
  (* up to the transcript *)
  set (ap := {| model_name := "base" |}).
  set (wA := with_events
               (with_events
                  (with_events
                     (with_events w
                        [Logged INFO "Loading Whisper model..."; ModelLoaded "base";
                         Logged INFO "Whisper model loaded."])
                     [Logged INFO "Transcription in progress..."])
                  [Transcribed p;
                   Logged ERROR ("Error transcribing audio: " +:+ exn_str e)])
               [Logged INFO "Transcription complete. Text:"]).
  destruct (persist_steps env "audio_transcription" base "transcription" "" wA)
    as (w1 & w2 & Hinit1 & Hgen1 & Hwrite1 & Hfiles2 & Hread2 & Hticks2 & _
        & Hsub2 & Hnew2 & evs2 & Hev2 & Hchat2); try done.
  simpl in Hgen1, Hwrite1, Hfiles2, Hread2, Hticks2, Hev2.
  fold transcript in Hgen1, Hwrite1, Hfiles2, Hread2.
  (* the summary *)
  set (wB := with_events w2 [Logged INFO "Summarization in progress..."]).
  destruct (summarize_text_returns env ap "" wB) as (summary & logs & Hsum & Hlogs).
  set (wC := with_events
               (with_events wB (ChatRequested (summary_request "") :: logs))
               [Logged INFO "Summarization complete. Summary:"]).
  destruct (persist_steps env "audio_summarize" base "summary" summary wC)
    as (w3 & w4 & Hinit3 & Hgen3 & Hwrite3 & Hfiles4 & Hread4 & _ & _
        & _ & _ & evs4 & Hev4 & Hchat4); try done.
  { unfold Fs.is_file_node in *. simpl. rewrite Hfiles2.
    by rewrite lookup_insert_ne. }
  { simpl. rewrite Hticks2. fold summary_file.
    unfold Fs.is_dir_node in *. simpl dirs.
    rewrite !orb_false_iff, !bool_decide_eq_false in *.
    destruct Hd2 as ((? & ?) & Hnot). repeat split; try done.
    intros [Hin | Hin]%Hnew2; [done|discriminate]. }
  simpl in Hgen3, Hwrite3, Hfiles4, Hread4, Hev4.
  rewrite Hticks2 in Hgen3, Hwrite3, Hfiles4, Hread4.
  fold summary_file in Hgen3, Hwrite3, Hfiles4, Hread4.
  exists w4, summary. split; [|split; [|split; [|split]]].
  - assert (parse_arguments env w = (Return p, w)) as Hparse by reflexivity.
    assert (os_path_exists p w = (Return (Fs.exists_ w p), w)) as Hfound
      by reflexivity.
    unfold main. step Hparse. step Hfound. rewrite Hex, Hfmt.
    cbn [negb]. cbv iota zeta. fold base.
    step (run_AudioProcessor_init env w Hload).
    rewrite run_bind, run_logging_info.
    rewrite (run_bind_return _ _ _ _ _
               (run_transcribe_audio_failure env _ p _ e Hfail)).
    rewrite run_bind, run_logging_info. rewrite run_bind, run_logging_debug.
    fold wA. step Hinit1. step Hgen1. step Hwrite1.
    rewrite run_bind, run_logging_info. fold wB.
    fold ap. step Hsum.
    rewrite run_bind, run_logging_info. rewrite run_bind, run_logging_debug.
    fold wC. step Hinit3. step Hgen3. exact Hwrite3.
  - by rewrite Hfiles4, Hfiles2.
  - unfold Fs.read in *. destruct (_ || _); [done|].
    rewrite Hfiles4, lookup_insert_ne; [exact Hread2|].
    rewrite !resolve_join_plain, !resolve_plain; try done.
    all: by apply output_name_plain.
  - exact Hread4.
  - rewrite Hev4. subst wC wB. simpl. rewrite Hev2. subst wA. simpl.
    rewrite !chat_requests_app, Hchat2, Hchat4. simpl.
    rewrite !app_nil_r. f_equal. f_equal.
    clear -Hlogs. induction logs as [|[] logs IH]; simpl in *; try done. auto.
Qed.

Lemma transcription_failure_is_absorbed_witness :
  whisper_transcribe deaf_env (env_file_path deaf_env)
    = inl (Exn "RuntimeError" "could not decode audio")
  /\ Fs.exists_ speech_world (env_file_path deaf_env) = true
  /\ is_supported_format (env_file_path deaf_env) = true
  /\ exists w' summary,
       main deaf_env speech_world = (Return tt, w')
       /\ Fs.read w' "audio_transcription/speech_transcription_20240307_090500.txt"
          = Some ""
       /\ Fs.read w' "audio_summarize/speech_summary_20240307_090500.txt"
          = Some summary.
Proof.
  assert (whisper_transcribe deaf_env (env_file_path deaf_env)
          = inl (Exn "RuntimeError" "could not decode audio")) as Hfail
    by reflexivity.
  assert (Fs.exists_ speech_world (env_file_path deaf_env) = true) as Hex
    by (vm_compute; reflexivity).
  assert (is_supported_format (env_file_path deaf_env) = true) as Hfmt
    by reflexivity.
  split; [exact Hfail|]. split; [exact Hex|]. split; [exact Hfmt|].
  destruct (transcription_failure_is_absorbed deaf_env speech_world _ Hfail)
    as [_ Hrun].
  destruct Hrun as (w' & summary & Hmain & _ & Hr1 & Hr2 & _);
    try (vm_compute; reflexivity).
  exists w', summary. split; [exact Hmain|]. split; [exact Hr1|exact Hr2].
Defined.

(** ** Two runs on the same input *)

Lemma fmt_digit_inj a b : Fmt.digit a = Fmt.digit b -> a mod 10 = b mod 10.
Proof.
  unfold Fmt.digit. intros H.
  assert (0 <= a mod 10 < 10) by (apply Z.mod_pos_bound; lia).
  assert (0 <= b mod 10 < 10) by (apply Z.mod_pos_bound; lia).
  apply (f_equal nat_of_ascii) in H.
  rewrite !nat_ascii_embedding in H by lia. lia.
Qed.

(** Clock readings that print alike are the same down to the second. *)
Lemma stamp_inj t t' :
  valid_datetime t -> valid_datetime t' ->
  1000 <= year t -> 1000 <= year t' ->
  stamp_YYYYMMDD_HHMMSS t = stamp_YYYYMMDD_HHMMSS t' ->
  to_the_second t = to_the_second t'.
Proof.
  intros (Hy & Hm & Hd & HH & HM & HS) (Hy' & Hm' & Hd' & HH' & HM' & HS') Y Y' E.
  unfold stamp_YYYYMMDD_HHMMSS in E.
  injection E as ?%fmt_digit_inj ?%fmt_digit_inj ?%fmt_digit_inj ?%fmt_digit_inj
    ?%fmt_digit_inj ?%fmt_digit_inj ?%fmt_digit_inj ?%fmt_digit_inj
    ?%fmt_digit_inj ?%fmt_digit_inj ?%fmt_digit_inj ?%fmt_digit_inj
    ?%fmt_digit_inj ?%fmt_digit_inj.
  destruct t as [y m d h mi s us], t' as [y' m' d' h' mi' s' us'].
  unfold to_the_second. simpl in *.
  f_equal; div_lia.
Qed.

(** Runs whose clock readings differ in a field down to the second, in
    four-digit years, get different file names for the same base name,
    suffix and extension. *)
Lemma filename_at_inj t t' base suffix ext :
  valid_datetime t -> valid_datetime t' ->
  1000 <= year t -> 1000 <= year t' ->
  filename_at t base suffix ext = filename_at t' base suffix ext ->
  to_the_second t = to_the_second t'.
Proof.
  intros Hv Hv' Hy Hy' E. unfold filename_at in E.
  rewrite !fmt_strftime_stamp in E by done.
  do 3 apply String.app_inj in E.
  apply stamp_inj; try done.
  unfold stamp_YYYYMMDD_HHMMSS in *. rewrite !str_app_cons in E.
  injection E as -> -> -> -> -> -> -> -> -> -> -> -> -> ->. reflexivity.
Qed.

(** C7, the failing input: two runs on [speech.mp3] within the same
    second of the wall clock generate the same two file names, and the
    second run replaces the transcript and the summary the first one
    wrote: after it the tree holds no more files than before it, and the
    first transcript is gone. *)
Theorem same_second_runs_collide :
  let path := "audio_transcription/speech_transcription_20240307_090500.txt" in
  let after_first := snd (script first_run_env speech_world) in
  let after_second := snd (script second_run_env after_first) in
  fst (generate_output_filename first_run_env "speech" "transcription" "txt"
         speech_world)
    = fst (generate_output_filename second_run_env "speech" "transcription" "txt"
             after_first)
  /\ fst (script first_run_env speech_world) = Return tt
  /\ fst (script second_run_env after_first) = Return tt
  /\ Fs.read after_first path = Some "first take"
  /\ Fs.read after_second path = Some "second take"
  /\ size (files after_second) = size (files after_first).
Proof. vm_compute. repeat split; reflexivity. Qed.

(** * Further properties *)

(** ** What the two services return *)

(** [transcribe_audio] hands back the [text] entry of the dict the
    model returns, as it is; without such an entry it returns the empty
    string.  In no case does it raise. *)
Theorem transcribe_audio_text
    (env : environ) (self : AudioProcessor) (path : string) (w : world) :
  (forall d t,
     whisper_transcribe env path = inr d -> d !! "text" = Some t ->
     transcribe_audio env self path w = (Return t, with_events w [Transcribed path]))
  /\ (forall d,
        whisper_transcribe env path = inr d -> d !! "text" = None ->
        fst (transcribe_audio env self path w) = Return "")
  /\ exists s, fst (transcribe_audio env self path w) = Return s.
Proof.
  unfold transcribe_audio, result_text. run_unfold.
  split; [|split].
  - intros d t -> Ht. by rewrite Ht.
  - intros d -> Ht. by rewrite Ht.
  - destruct (whisper_transcribe env path) as [e|d]; [by eexists|].
    destruct (d !! "text"); by eexists.
Qed.

Lemma transcribe_audio_text_witness :
  fst (transcribe_audio speech_env {| model_name := "base" |} "speech.mp3" speech_world)
    = Return "hello world"
  /\ fst (transcribe_audio textless_env {| model_name := "base" |} "speech.mp3"
            speech_world)
     = Return "".
Proof.
  split.
  - destruct (transcribe_audio_text speech_env {| model_name := "base" |}
                "speech.mp3" speech_world) as (H & _).
    by rewrite (H {[ "text" := "hello world" ]} "hello world" eq_refl eq_refl).
  - destruct (transcribe_audio_text textless_env {| model_name := "base" |}
                "speech.mp3" speech_world) as (_ & H & _).
    exact (H {[ "language" := "en" ]} eq_refl eq_refl).
Defined.

(** On a response that has the expected shape, [summarize_text]
    returns the content of the message of the first choice, stripped of
    the white space around it; later choices are not looked at and no
    error is logged. *)
Theorem summarize_text_first_choice
    (env : environ) (self : AudioProcessor) (text : string) (w : world)
    (d c m : list (string * pyval)) (others : list pyval) (s : string) :
  chat_completion_create env (summary_request text) = inr (PyDict d) ->
  Py.assoc "choices" d = Some (PyList (PyDict c :: others)) ->
  Py.assoc "message" c = Some (PyDict m) ->
  Py.assoc "content" m = Some (PyStr s) ->
  summarize_text env self text w
    = (Return (Str.strip s), with_events w [ChatRequested (summary_request text)]).
Proof.
  intros Hr Hc Hm Hs. unfold summarize_text, openai_ChatCompletion_create. run_unfold. rewrite Hr.
  simpl. rewrite Hc. simpl. rewrite Hm. simpl. rewrite Hs. reflexivity.
Qed.

Lemma summarize_text_first_choice_witness :
  summarize_text speech_env {| model_name := "base" |} "hello world" speech_world
    = (Return "A greeting.",
       with_events speech_world [ChatRequested (summary_request "hello world")]).
Proof.
  exact (summarize_text_first_choice speech_env {| model_name := "base" |}
           "hello world" speech_world
           [("choices",
             PyList [PyDict [("message", PyDict [("role", PyStr "assistant");
                                                 ("content", PyStr " A greeting. ")])]])]
           [("message", PyDict [("role", PyStr "assistant");
                                ("content", PyStr " A greeting. ")])]
           [("role", PyStr "assistant"); ("content", PyStr " A greeting. ")]
           [] " A greeting. " eq_refl eq_refl eq_refl eq_refl).
Defined.

(** *** [strip] *)

Lemma str_rstrip_idem s : Str.rstrip (Str.rstrip s) = Str.rstrip s.
Proof.
  induction s as [|a s IH]; [done|]. simpl.
  destruct (Str.rstrip s) as [|b r] eqn:E.
  - destruct (Str.isspace a) eqn:Ha; simpl; [done|]. by rewrite Ha.
  - simpl in *. by rewrite IH.
Qed.

(** Stripping on the right keeps the first character of a string that
    does not start with white space. *)
Lemma str_rstrip_head a s :
  Str.isspace a = false ->
  exists r, Str.rstrip (String a s) = String a r.
Proof.
  intros Ha. simpl. destruct (Str.rstrip s); rewrite ?Ha; by eexists.
Qed.

Lemma str_lstrip_head s :
  Str.lstrip s = "" \/ exists a r, Str.lstrip s = String a r /\ Str.isspace a = false.
Proof.
  induction s as [|a s IH]; [by left|]. simpl.
  destruct (Str.isspace a) eqn:Ha; [done|]. right. by exists a, s.
Qed.

Lemma str_strip_idem s : Str.strip (Str.strip s) = Str.strip s.
Proof.
  unfold Str.strip.
  destruct (str_lstrip_head s) as [-> | (a & r & -> & Ha)]; [done|].
  destruct (str_rstrip_head a r Ha) as [r' Hr]. rewrite Hr.
  simpl Str.lstrip. rewrite Ha, <- Hr. apply str_rstrip_idem.
Qed.

(** Whatever the chat service answers, [summarize_text] returns a
    string with no white space at its start or at its end: stripping it
    again changes nothing.  (The empty string of the failure case is
    such a string.) *)
Theorem summarize_text_is_stripped
    (env : environ) (self : AudioProcessor) (text : string) (w : world) :
  exists s,
    fst (summarize_text env self text w) = Return s /\ Str.strip s = s.
Proof.
  unfold summarize_text, openai_ChatCompletion_create. run_unfold.
  destruct (chat_completion_create env (summary_request text)) as [e|response];
    [by exists ""|]. simpl.
  destruct (Py.getitem_str response "choices") as [e|choices]; [by exists ""|]. simpl.
  destruct (Py.getitem_0 choices) as [e|choice]; [by exists ""|]. simpl.
  destruct (Py.getitem_str choice "message") as [e|msg]; [by exists ""|]. simpl.
  destruct (Py.getitem_str msg "content") as [e|body]; [by exists ""|]. simpl.
  destruct body as [| |s| |]; try by exists "".
  exists (Str.strip s). split; [done|]. apply str_strip_idem.
Qed.

(** ** Output file names *)

(** The names [generate_output_filename] builds tell clock readings
    apart down to the second and no further: two calls with the same
    arguments return the same name exactly when their readings (both in
    four-digit years) agree once cut to the second.  Readings that
    differ in the second or above give different names; readings that
    differ in their microseconds only give the same name. *)
Theorem generate_output_filename_resolution
    (env env' : environ) (base suffix ext : string) (w w' : world) :
  valid_datetime (clock env (ticks w)) ->
  valid_datetime (clock env' (ticks w')) ->
  1000 <= year (clock env (ticks w)) ->
  1000 <= year (clock env' (ticks w')) ->
  fst (generate_output_filename env base suffix ext w)
    = fst (generate_output_filename env' base suffix ext w')
  <-> to_the_second (clock env (ticks w)) = to_the_second (clock env' (ticks w')).
Proof.
  intros Hv Hv' Hy Hy'. rewrite !run_generate_output_filename. simpl. split.
  - intros [= E]. by apply (filename_at_inj _ _ base suffix ext).
  - intros E. f_equal.
    destruct (clock env (ticks w)) as [y m d h mi s us],
             (clock env' (ticks w')) as [y' m' d' h' mi' s' us'].
    unfold to_the_second in E. simpl in E.
    injection E as -> -> -> -> -> ->. reflexivity.
Qed.

Lemma generate_output_filename_resolution_witness :
  (* one second apart: two names *)
  fst (generate_output_filename ticking_env "speech" "summary" "txt" speech_world)
    <> fst (generate_output_filename ticking_env "speech" "summary" "txt"
              (ticked speech_world))
  (* a quarter of a second apart: one name *)
  /\ clock first_run_env 0%nat <> clock second_run_env 0%nat
  /\ fst (generate_output_filename first_run_env "speech" "summary" "txt" speech_world)
     = fst (generate_output_filename second_run_env "speech" "summary" "txt"
              speech_world).
Proof.
  assert (forall n us, (n < 60)%nat -> valid_datetime (Datetime 2024 3 7 9 5 (Z.of_nat n) us))
    as Hvalid by (intros n us Hn; unfold valid_datetime; simpl; lia).
  split; [|split].
  - intros E.
    apply (generate_output_filename_resolution ticking_env ticking_env
             "speech" "summary" "txt" speech_world (ticked speech_world)) in E.
    + discriminate E.
    + apply Hvalid. simpl. lia.
    + apply Hvalid. simpl. lia.
    + simpl. lia.
    + simpl. lia.
  - discriminate.
  - apply (generate_output_filename_resolution first_run_env second_run_env
             "speech" "summary" "txt" speech_world speech_world).
    + apply (Hvalid 0%nat). lia.
    + apply (Hvalid 0%nat). lia.
    + simpl. lia.
    + simpl. lia.
    + reflexivity.
Defined.

(** Whatever the input path, the name generated for an output file
    holds no separator, so the file [write_to_file] writes lies directly
    in the directory of the writer: the directories of the input path
    never show in it, and it ends with [.txt]. *)
Theorem output_file_lies_in_directory
    (env : environ) (file_path suffix dir : string) (w : world) :
  Str.contains OsPath.sep suffix = false ->
  exists name,
    fst (generate_output_filename env
           (fst (OsPath.splitext (OsPath.basename file_path))) suffix "txt" w)
      = Return name
    /\ plain_name name
    /\ Str.endswith name ".txt" = true
    /\ Fs.resolve (OsPath.join dir name) = Fs.resolve dir ++ [name].
Proof.
  intros Hs. rewrite run_generate_output_filename. eexists. split; [reflexivity|].
  assert (plain_name
            (filename_at (clock env (ticks w))
               (fst (OsPath.splitext (OsPath.basename file_path))) suffix "txt"))
    as Hp.
  { apply output_name_plain; [|done..].
    apply splitext_root_plain, basename_plain. }
  split; [exact Hp|]. split; [|by apply resolve_join_plain].
  apply str_endswith_spec.
  exists ((((fst (OsPath.splitext (OsPath.basename file_path)) +:+ "_") +:+ suffix)
           +:+ "_") +:+ Fmt.strftime "%Y%m%d_%H%M%S" (clock env (ticks w))).
  unfold filename_at. rewrite !str_app_assoc. reflexivity.
Qed.

Lemma output_file_lies_in_directory_witness :
  Str.contains OsPath.sep "transcription" = false
  /\ exists name,
       fst (generate_output_filename speech_env
              (fst (OsPath.splitext (OsPath.basename "../../etc/talk.mp3")))
              "transcription" "txt" speech_world)
         = Return name
       /\ Fs.resolve (OsPath.join "audio_transcription" name)
          = ["audio_transcription"; name].
Proof.
  assert (Str.contains OsPath.sep "transcription" = false) as H by reflexivity.
  split; [exact H|].
  destruct (output_file_lies_in_directory speech_env "../../etc/talk.mp3"
              "transcription" "audio_transcription" speech_world H)
    as (name & Hn & _ & _ & Hr).
  exists name. split; [exact Hn|exact Hr].
Defined.

(** ** The pipeline, stage by stage *)

(** What the two services return does not depend on the world. *)
Lemma transcribe_audio_returns env path :
  exists text logs,
    forallb is_log logs = true
    /\ forall self w,
         transcribe_audio env self path w
           = (Return text, with_events w (Transcribed path :: logs)).
Proof.
  unfold transcribe_audio, result_text. run_unfold.
  destruct (whisper_transcribe env path) as [e|d].
  - eexists _, [Logged ERROR _]. split; [reflexivity|]. intros _ w. simpl.
    by rewrite with_events_app.
  - destruct (d !! "text") as [t|].
    + exists t, []. split; [done|]. by intros _ w.
    + eexists _, [Logged ERROR _]. split; [reflexivity|]. intros _ w. simpl.
      by rewrite with_events_app.
Qed.

Lemma summarize_text_returns_uniform env text :
  exists s logs,
    forallb is_log logs = true
    /\ forall self w,
         summarize_text env self text w
           = (Return s, with_events w (ChatRequested (summary_request text) :: logs)).
Proof.
  unfold summarize_text, openai_ChatCompletion_create. run_unfold.
  destruct (chat_completion_create env (summary_request text)) as [e|response];
    [eexists _, [Logged ERROR _]; split; [reflexivity|]; intros _ w; simpl;
     by rewrite with_events_app|]. simpl.
  destruct (Py.getitem_str response "choices") as [e|choices];
    [eexists _, [Logged ERROR _]; split; [reflexivity|]; intros _ w; simpl;
     by rewrite with_events_app|]. simpl.
  destruct (Py.getitem_0 choices) as [e|choice];
    [eexists _, [Logged ERROR _]; split; [reflexivity|]; intros _ w; simpl;
     by rewrite with_events_app|]. simpl.
  destruct (Py.getitem_str choice "message") as [e|msg];
    [eexists _, [Logged ERROR _]; split; [reflexivity|]; intros _ w; simpl;
     by rewrite with_events_app|]. simpl.
  destruct (Py.getitem_str msg "content") as [e|body];
    [eexists _, [Logged ERROR _]; split; [reflexivity|]; intros _ w; simpl;
     by rewrite with_events_app|]. simpl.
  destruct (Py.strip body) as [e|summary];
    [eexists _, [Logged ERROR _]; split; [reflexivity|]; intros _ w; simpl;
     by rewrite with_events_app|].
  eexists _, []. split; [reflexivity|]. by intros _ w.
Qed.

Lemma chat_requests_logs logs : forallb is_log logs = true -> chat_requests logs = [].
Proof. induction logs as [|[] logs IH]; simpl; try done. Qed.

(** On an input that passes validation, with the model loaded and a
    file tree that accepts the two output files, [main] runs to its end:
    the transcript file holds exactly what [transcribe_audio] returned,
    the one chat request asks for the summary of that same text, and the
    summary file holds exactly what [summarize_text] returned for it.
    No other file is changed. *)
Theorem main_writes_both_artifacts (env : environ) (w : world) :
  let p := env_file_path env in
  let base := fst (OsPath.splitext (OsPath.basename p)) in
  let transcript := filename_at (clock env (ticks w)) base "transcription" "txt" in
  let summary_file := filename_at (clock env (S (ticks w))) base "summary" "txt" in
  let processor := {| model_name := "base" |} in
  Fs.exists_ w p = true ->
  is_supported_format p = true ->
  whisper_load_model env "base" = None ->
  (forall c, os_fault env c = None) ->
  Fs.is_file_node w ["audio_transcription"] = false ->
  Fs.is_file_node w ["audio_summarize"] = false ->
  Fs.is_dir_node w ["audio_transcription"; transcript] = false ->
  Fs.is_dir_node w ["audio_summarize"; summary_file] = false ->
  exists w' text summary,
    main env w = (Return tt, w')
    /\ fst (transcribe_audio env processor p w) = Return text
    /\ fst (summarize_text env processor text w) = Return summary
    /\ files w'
       = <[ ["audio_summarize"; summary_file] := summary ]>
           (<[ ["audio_transcription"; transcript] := text ]> (files w))
    /\ chat_requests (events w')
       = chat_requests (events w) ++ [summary_request text].
Proof.
  intros p base transcript summary_file ap Hex Hfmt Hload Hos Hf1 Hf2 Hd1 Hd2.
  assert (Str.contains OsPath.sep base = false) as Hbase.
  { apply splitext_root_plain, basename_plain. }
  assert (plain_name "audio_transcription") as Hp1 by (by repeat split).
  assert (plain_name "audio_summarize") as Hp2 by (by repeat split).
  destruct (transcribe_audio_returns env p) as (text & tlogs & Htlogs & Htr).
  destruct (summarize_text_returns_uniform env text) as (summary & slogs & Hslogs & Hsum).
  set (wA := with_events
               (with_events
                  (with_events
                     (with_events w
                        [Logged INFO "Loading Whisper model..."; ModelLoaded "base";
                         Logged INFO "Whisper model loaded."])
                     [Logged INFO "Transcription in progress..."])
                  (Transcribed p :: tlogs))
               [Logged INFO "Transcription complete. Text:"]).
  destruct (persist_steps env "audio_transcription" base "transcription" text wA)
    as (w1 & w2 & Hinit1 & Hgen1 & Hwrite1 & Hfiles2 & _ & Hticks2 & _
        & Hsub2 & Hnew2 & evs2 & Hev2 & Hchat2); try done.
  simpl in Hgen1, Hwrite1, Hfiles2, Hticks2, Hev2.
  fold transcript in Hgen1, Hwrite1, Hfiles2.
  set (wB := with_events w2 [Logged INFO "Summarization in progress..."]).
  set (wC := with_events
               (with_events wB (ChatRequested (summary_request text) :: slogs))
               [Logged INFO "Summarization complete. Summary:"]).
  destruct (persist_steps env "audio_summarize" base "summary" summary wC)
    as (w3 & w4 & Hinit3 & Hgen3 & Hwrite3 & Hfiles4 & _ & _ & _
        & _ & _ & evs4 & Hev4 & Hchat4); try done.
  { unfold Fs.is_file_node in *. simpl. rewrite Hfiles2.
    by rewrite lookup_insert_ne. }
  { simpl. rewrite Hticks2. fold summary_file.
    unfold Fs.is_dir_node in *. simpl dirs.
    rewrite !orb_false_iff, !bool_decide_eq_false in *.
    destruct Hd2 as ((? & ?) & Hnot). repeat split; try done.
    intros [Hin | Hin]%Hnew2; [done|discriminate]. }
  simpl in Hgen3, Hwrite3, Hfiles4, Hev4.
  rewrite Hticks2 in Hgen3, Hwrite3, Hfiles4.
  fold summary_file in Hgen3, Hwrite3, Hfiles4.
  exists w4, text, summary. split; [|split; [|split; [|split]]].
  - assert (parse_arguments env w = (Return p, w)) as Hparse by reflexivity.
    assert (os_path_exists p w = (Return (Fs.exists_ w p), w)) as Hfound
      by reflexivity.
    unfold main. step Hparse. step Hfound. rewrite Hex, Hfmt.
    cbn [negb]. cbv iota zeta. fold base.
    step (run_AudioProcessor_init env w Hload).
    rewrite run_bind, run_logging_info.
    rewrite (run_bind_return _ _ _ _ _ (Htr _ _)).
    rewrite run_bind, run_logging_info. rewrite run_bind, run_logging_debug.
    fold wA. step Hinit1. step Hgen1. step Hwrite1.
    rewrite run_bind, run_logging_info. fold wB.
    rewrite (run_bind_return _ _ _ _ _ (Hsum _ _)).
    rewrite run_bind, run_logging_info. rewrite run_bind, run_logging_debug.
    fold wC. step Hinit3. step Hgen3. exact Hwrite3.
  - by rewrite Htr.
  - by rewrite Hsum.
  - by rewrite Hfiles4, Hfiles2.
  - rewrite Hev4. subst wC wB. simpl. rewrite Hev2. subst wA. simpl.
    rewrite !chat_requests_app, Hchat2, Hchat4. simpl.
    rewrite ?chat_requests_app, ?(chat_requests_logs _ Htlogs),
      ?(chat_requests_logs _ Hslogs). simpl.
    by rewrite ?app_nil_r.
Qed.

Lemma main_writes_both_artifacts_witness :
  Fs.exists_ speech_world (env_file_path speech_env) = true
  /\ is_supported_format (env_file_path speech_env) = true
  /\ exists w',
       main speech_env speech_world = (Return tt, w')
       /\ files w'
          = <[ ["audio_summarize"; "speech_summary_20240307_090500.txt"]
                 := "A greeting." ]>
              (<[ ["audio_transcription"; "speech_transcription_20240307_090500.txt"]
                    := "hello world" ]> (files speech_world)).
Proof.
  assert (Fs.exists_ speech_world (env_file_path speech_env) = true) as Hex
    by (vm_compute; reflexivity).
  assert (is_supported_format (env_file_path speech_env) = true) as Hfmt
    by reflexivity.
  split; [exact Hex|]. split; [exact Hfmt|].
  destruct (main_writes_both_artifacts speech_env speech_world Hex Hfmt)
    as (w' & text & summary & Hmain & Ht & Hs & Hfiles & _);
    try (vm_compute; reflexivity).
  exists w'. split; [exact Hmain|].
  injection Ht as <-. injection Hs as <-. exact Hfiles.
Defined.

(** ** Failures that stop the pipeline *)

(** When the speech model cannot be loaded, the error leaves [main]:
    nothing was transcribed, requested or written, the file tree is as it
    was, and the script ends with exit status 1. *)
Theorem model_load_failure_aborts (env : environ) (w : world) (e : exn) :
  Fs.exists_ w (env_file_path env) = true ->
  is_supported_format (env_file_path env) = true ->
  whisper_load_model env "base" = Some e ->
  main env w = (Raise e, with_events w [Logged INFO "Loading Whisper model..."])
  /\ (not_api_key (env_api_key env) = false ->
      exit_status (fst (script env w)) = 1).
Proof.
  intros Hex Hfmt Hload.
  assert (forall w0, Fs.exists_ w0 (env_file_path env) = true ->
            main env w0
              = (Raise e, with_events w0 [Logged INFO "Loading Whisper model..."]))
    as Hmain.
  { intros w0 Hex0.
    assert (parse_arguments env w0 = (Return (env_file_path env), w0)) as Hparse
      by reflexivity.
    assert (os_path_exists (env_file_path env) w0
            = (Return (Fs.exists_ w0 (env_file_path env)), w0)) as Hfound
      by reflexivity.
    unfold main. step Hparse. step Hfound. rewrite Hex0, Hfmt.
    cbn [negb]. cbv iota zeta.
    apply run_bind_raise. unfold AudioProcessor_init. rewrite Hload.
    by rewrite run_bind, run_logging_info. }
  split; [by apply Hmain|].
  intros Hk. unfold script, set_openai_api_key. rewrite Hk.
  change (exit_status (fst (main env (with_api_key w (env_api_key env)))) = 1).
  by rewrite (Hmain (with_api_key w (env_api_key env)) Hex).
Qed.

Lemma model_load_failure_aborts_witness :
  Fs.exists_ speech_world (env_file_path no_model_env) = true
  /\ is_supported_format (env_file_path no_model_env) = true
  /\ whisper_load_model no_model_env "base"
     = Some (Exn "RuntimeError" "checkpoint not found")
  /\ fst (main no_model_env speech_world)
     = Raise (Exn "RuntimeError" "checkpoint not found")
  /\ exit_status (fst (script no_model_env speech_world)) = 1.
Proof.
  assert (Fs.exists_ speech_world (env_file_path no_model_env) = true) as Hex
    by (vm_compute; reflexivity).
  assert (is_supported_format (env_file_path no_model_env) = true) as Hfmt
    by reflexivity.
  assert (whisper_load_model no_model_env "base"
          = Some (Exn "RuntimeError" "checkpoint not found")) as Hload
    by reflexivity.
  split; [exact Hex|]. split; [exact Hfmt|]. split; [exact Hload|].
  destruct (model_load_failure_aborts no_model_env speech_world _ Hex Hfmt Hload)
    as [Hmain Hexit].
  split; [by rewrite Hmain|]. by apply Hexit.
Defined.

Lemma run_open_w_write_refused env p text w e :
  p <> "" ->
  Fs.is_dir_node w (Fs.resolve p) || Fs.wants_dir p = false ->
  Fs.is_dir_node w (Fs.parent (Fs.resolve p)) = true ->
  os_fault env (SysOpen (Fs.resolve p)) = Some e ->
  open_w_write env p text w = (Raise e, w).
Proof.
  intros Hne Hnd Hpar Ho.
  unfold open_w_write, get_world, syscall_gate, set_files. run_unfold.
  cbv beta iota zeta. rewrite bool_decide_eq_false_2 by done.
  by rewrite Hnd, Hpar, Ho.
Qed.

Lemma run_FileWriter_init_blocked env d w :
  plain_name d ->
  Fs.is_dir_node w [d] = false -> Fs.is_file_node w [d] = true ->
  FileWriter_init env d w = (Raise (Exn "FileExistsError" "File exists"), w).
Proof.
  intros Hd Hdir Hfile. pose proof Hd as (_ & Hne & _).
  unfold FileWriter_init, ensure_directory_exists. simpl directory.
  apply run_bind_raise. rewrite run_os_makedirs_exist_ok by done.
  rewrite (resolve_plain _ Hd). simpl. apply run_bind_raise.
  unfold ensure_dir, get_world. run_unfold. cbv beta iota.
  by rewrite Hdir, Hfile.
Qed.

(** When the operating system refuses to open the transcript file,
    the error leaves [main] at that point: the transcription has been
    made, but no file is written and the chat service is never asked for a
    summary. *)
Theorem transcript_write_failure_stops (env : environ) (w : world) (e : exn) :
  let p := env_file_path env in
  let base := fst (OsPath.splitext (OsPath.basename p)) in
  let transcript := filename_at (clock env (ticks w)) base "transcription" "txt" in
  Fs.exists_ w p = true ->
  is_supported_format p = true ->
  whisper_load_model env "base" = None ->
  Fs.is_file_node w ["audio_transcription"] = false ->
  os_fault env (SysMkdir ["audio_transcription"]) = None ->
  Fs.is_dir_node w ["audio_transcription"; transcript] = false ->
  os_fault env (SysOpen ["audio_transcription"; transcript]) = Some e ->
  exists w',
    main env w = (Raise e, w')
    /\ files w' = files w
    /\ chat_requests (events w') = chat_requests (events w)
    /\ In (Transcribed p) (events w').
Proof.
  intros p base transcript Hex Hfmt Hload Hf1 Hmk Hd1 Hopen.
  assert (Str.contains OsPath.sep base = false) as Hbase.
  { apply splitext_root_plain, basename_plain. }
  assert (plain_name "audio_transcription") as Hp1 by (by repeat split).
  assert (plain_name transcript) as Hname by (by apply output_name_plain).
  destruct (transcribe_audio_returns env p) as (text & tlogs & Htlogs & Htr).
  set (wA := with_events
               (with_events
                  (with_events
                     (with_events w
                        [Logged INFO "Loading Whisper model..."; ModelLoaded "base";
                         Logged INFO "Whisper model loaded."])
                     [Logged INFO "Transcription in progress..."])
                  (Transcribed p :: tlogs))
               [Logged INFO "Transcription complete. Text:"]).
  destruct (run_FileWriter_init env "audio_transcription" wA)
    as (w1 & Hinit & Hg & Hdir).
  { by apply can_makedirs_plain. }
  rewrite (resolve_plain _ Hp1) in Hg, Hdir. simpl in Hg, Hdir.
  destruct Hg as (Hfiles & Hticks & _ & Hsub & Hnew & evs1 & Hev1 & Hfs1).
  pose proof (resolve_join_plain "audio_transcription" transcript Hname) as Hk.
  rewrite (resolve_plain _ Hp1) in Hk. simpl in Hk.
  assert (write_to_file env {| directory := "audio_transcription" |} transcript text
            (ticked w1) = (Raise e, ticked w1)) as Hwrite.
  { unfold write_to_file. simpl directory. apply run_bind_raise.
    apply run_open_w_write_refused; rewrite ?Hk, ?parent_snoc.
    - by apply join_plain_nonempty.
    - rewrite (wants_dir_join_plain _ _ Hname), orb_false_r.
      unfold Fs.is_dir_node in *. simpl.
      rewrite !orb_false_iff, !bool_decide_eq_false in *.
      destruct Hd1 as ((? & ?) & Hnot). repeat split; try done.
      intros [Hin | Hin%list_elem_of_singleton]%Hnew; [done|discriminate].
    - apply (Hdir ["audio_transcription"]). set_solver.
    - exact Hopen. }
  exists (ticked w1). split; [|split; [|split]].
  - assert (parse_arguments env w = (Return p, w)) as Hparse by reflexivity.
    assert (os_path_exists p w = (Return (Fs.exists_ w p), w)) as Hfound
      by reflexivity.
    unfold main. step Hparse. step Hfound. rewrite Hex, Hfmt.
    cbn [negb]. cbv iota zeta. fold base.
    step (run_AudioProcessor_init env w Hload).
    rewrite run_bind, run_logging_info.
    rewrite (run_bind_return _ _ _ _ _ (Htr _ _)).
    rewrite run_bind, run_logging_info. rewrite run_bind, run_logging_debug.
    fold wA. step Hinit.
    rewrite run_bind, run_generate_output_filename. cbv beta iota.
    rewrite Hticks. simpl ticks. fold transcript. fold (filename_at (clock env (ticks w)) base "transcription" "txt"). fold transcript.
    by apply run_bind_raise.
  - simpl. by rewrite Hfiles.
  - simpl. rewrite Hev1. subst wA. simpl.
    rewrite ?chat_requests_app, (chat_requests_fs_events _ Hfs1). simpl.
    rewrite (chat_requests_logs _ Htlogs). by rewrite ?app_nil_r.
  - simpl. rewrite Hev1. subst wA. simpl. rewrite !in_app_iff. simpl. tauto.
Qed.

Lemma transcript_write_failure_stops_witness :
  Fs.exists_ speech_world (env_file_path readonly_env) = true
  /\ is_supported_format (env_file_path readonly_env) = true
  /\ exists w',
       main readonly_env speech_world
         = (Raise (Exn "PermissionError" "Permission denied"), w')
       /\ files w' = files speech_world.
Proof.
  assert (Fs.exists_ speech_world (env_file_path readonly_env) = true) as Hex
    by (vm_compute; reflexivity).
  assert (is_supported_format (env_file_path readonly_env) = true) as Hfmt
    by reflexivity.
  split; [exact Hex|]. split; [exact Hfmt|].
  destruct (transcript_write_failure_stops readonly_env speech_world
              (Exn "PermissionError" "Permission denied") Hex Hfmt)
    as (w' & Hmain & Hfiles & _); try (vm_compute; reflexivity).
  exists w'. split; [exact Hmain|exact Hfiles].
Defined.

(** When a regular file already bears the name [audio_transcription],
    [FileWriter] cannot make its directory: [main] ends with a
    [FileExistsError] after the transcription was made, without writing
    any file, creating any directory or asking for a summary. *)
Theorem output_directory_blocked (env : environ) (w : world) :
  let p := env_file_path env in
  Fs.exists_ w p = true ->
  is_supported_format p = true ->
  whisper_load_model env "base" = None ->
  Fs.is_file_node w ["audio_transcription"] = true ->
  Fs.is_dir_node w ["audio_transcription"] = false ->
  exists e w',
    main env w = (Raise e, w')
    /\ exn_class e = "FileExistsError"
    /\ files w' = files w
    /\ dirs w' = dirs w
    /\ chat_requests (events w') = chat_requests (events w)
    /\ In (Transcribed p) (events w').
Proof.
  intros p Hex Hfmt Hload Hfile Hdir.
  assert (plain_name "audio_transcription") as Hp1 by (by repeat split).
  destruct (transcribe_audio_returns env p) as (text & tlogs & Htlogs & Htr).
  set (wA := with_events
               (with_events
                  (with_events
                     (with_events w
                        [Logged INFO "Loading Whisper model..."; ModelLoaded "base";
                         Logged INFO "Whisper model loaded."])
                     [Logged INFO "Transcription in progress..."])
                  (Transcribed p :: tlogs))
               [Logged INFO "Transcription complete. Text:"]).
  exists (Exn "FileExistsError" "File exists"), wA.
  split; [|split; [|split; [|split; [|split]]]]; try done.
  - assert (parse_arguments env w = (Return p, w)) as Hparse by reflexivity.
    assert (os_path_exists p w = (Return (Fs.exists_ w p), w)) as Hfound
      by reflexivity.
    unfold main. step Hparse. step Hfound. rewrite Hex, Hfmt.
    cbn [negb]. cbv iota zeta.
    step (run_AudioProcessor_init env w Hload).
    rewrite run_bind, run_logging_info.
    rewrite (run_bind_return _ _ _ _ _ (Htr _ _)).
    rewrite run_bind, run_logging_info. rewrite run_bind, run_logging_debug.
    fold wA. apply run_bind_raise. by apply run_FileWriter_init_blocked.
  - subst wA. simpl.
    rewrite ?chat_requests_app. simpl.
    rewrite (chat_requests_logs _ Htlogs). by rewrite ?app_nil_r.
  - subst wA. simpl. rewrite !in_app_iff. simpl. tauto.
Qed.

Lemma output_directory_blocked_witness :
  Fs.exists_ blocked_world (env_file_path speech_env) = true
  /\ Fs.is_file_node blocked_world ["audio_transcription"] = true
  /\ exists e w',
       main speech_env blocked_world = (Raise e, w')
       /\ exn_class e = "FileExistsError"
       /\ files w' = files blocked_world.
Proof.
  assert (Fs.exists_ blocked_world (env_file_path speech_env) = true) as Hex
    by (vm_compute; reflexivity).
  assert (Fs.is_file_node blocked_world ["audio_transcription"] = true) as Hfile
    by (vm_compute; reflexivity).
  split; [exact Hex|]. split; [exact Hfile|].
  destruct (output_directory_blocked speech_env blocked_world Hex)
    as (e & w' & Hmain & Hclass & Hfiles & _); try (vm_compute; reflexivity).
  exists e, w'. split; [exact Hmain|]. split; [exact Hclass|exact Hfiles].
Defined.

(** ** What [main] never touches *)

Lemma touched_refl env n w : touched_only_outputs env n w w.
Proof.
  split; [done|]. split; [done|]. split; [by left|].
  exists []. rewrite app_nil_r. split; [done|]. split; [done|]. simpl. lia.
Qed.

Lemma touched_trans env a b w1 w2 w3 :
  touched_only_outputs env a w1 w2 -> touched_only_outputs env b w2 w3 ->
  touched_only_outputs env (a + b) w1 w3.
Proof.
  intros (Hf1 & Hs1 & Hn1 & evs1 & He1 & Ha1 & Hc1)
         (Hf2 & Hs2 & Hn2 & evs2 & He2 & Ha2 & Hc2).
  split; [|split; [|split]].
  - intros k Hk. by rewrite Hf2, Hf1.
  - set_solver.
  - intros k Hk. destruct (Hn2 k Hk) as [H|H]; [|by right]. by apply Hn1.
  - exists (evs1 ++ evs2). rewrite He2, He1, app_assoc. split; [done|]. split.
    + by rewrite forallb_app, Ha1, Ha2.
    + rewrite chat_requests_app, length_app. lia.
Qed.

Lemma touched_weaken env a b w w' :
  (a <= b)%nat -> touched_only_outputs env a w w' -> touched_only_outputs env b w w'.
Proof.
  intros Hab (Hf & Hs & Hn & evs & He & Ha & Hc).
  split; [done|]. split; [done|]. split; [done|].
  exists evs. split; [done|]. split; [done|]. lia.
Qed.

(** Sequencing, with a fact about the value passed on. *)
Lemma confined_bind {A B} env a b (P : A -> Prop) (m : M A) (k : A -> M B) :
  confined env a m ->
  (forall w x w', m w = (Return x, w') -> P x) ->
  (forall x, P x -> confined env b (k x)) ->
  confined env (a + b) (m ≫= k).
Proof.
  intros Hm HP Hk w. rewrite run_bind. specialize (Hm w).
  destruct (m w) as [[x|e|c] w1] eqn:E; simpl in *.
  - eapply touched_trans; [exact Hm|]. apply Hk. by eapply HP.
  - eapply touched_weaken; [|exact Hm]. lia.
  - eapply touched_weaken; [|exact Hm]. lia.
Qed.

Lemma confined_seq {A B} env a b (m : M A) (k : A -> M B) :
  confined env a m -> (forall x, confined env b (k x)) ->
  confined env (a + b) (m ≫= k).
Proof.
  intros Hm Hk. apply (confined_bind env a b (fun _ => True)); auto.
Qed.

Lemma touched_events env n w evs :
  forallb (allowed_event env) evs = true ->
  (length (chat_requests evs) <= n)%nat ->
  touched_only_outputs env n w (with_events w evs).
Proof.
  intros Ha Hc. split; [done|]. split; [done|]. split; [by left|].
  by exists evs.
Qed.

Lemma confined_ret {A} env n (a : A) : confined env n (ret a).
Proof. intros w. apply touched_refl. Qed.

Lemma confined_logging_info env n msg : confined env n (logging_info msg).
Proof. intros w. rewrite run_logging_info. apply touched_events; simpl; [done|lia]. Qed.

Lemma confined_logging_error env n msg : confined env n (logging_error msg).
Proof. intros w. rewrite run_logging_error. apply touched_events; simpl; [done|lia]. Qed.

Lemma confined_logging_debug env n msg : confined env n (logging_debug msg).
Proof. intros w. rewrite run_logging_debug. apply touched_refl. Qed.

Lemma confined_raise {A} env n e : confined env n (@raise A e).
Proof. intros w. apply touched_refl. Qed.

Lemma confined_lift {A} env n (r : exn + A) : confined env n (lift r).
Proof. destruct r; [apply confined_raise|apply confined_ret]. Qed.

Lemma confined_generate_output_filename env n base suffix ext :
  confined env n (generate_output_filename env base suffix ext).
Proof.
  intros w. rewrite run_generate_output_filename. simpl.
  split; [done|]. split; [done|]. split; [by left|].
  exists []. simpl. rewrite app_nil_r. split; [done|]. split; [done|]. lia.
Qed.

Lemma confined_AudioProcessor_init env n : confined env n (AudioProcessor_init env).
Proof.
  intros w. unfold AudioProcessor_init.
  destruct (whisper_load_model env "base"); run_unfold; simpl;
    rewrite ?with_events_app; apply touched_events; simpl; (done || lia).
Qed.

Lemma confined_transcribe_audio env n self :
  confined env n (transcribe_audio env self (env_file_path env)).
Proof.
  intros w. unfold transcribe_audio, result_text. run_unfold.
  destruct (whisper_transcribe env (env_file_path env)) as [e|d]; simpl;
    [|destruct (d !! "text"); simpl];
    rewrite ?with_events_app; apply touched_events; simpl;
    rewrite ?bool_decide_eq_true_2 by done; (done || lia).
Qed.

Lemma confined_summarize_text env n self text :
  confined env (S n) (summarize_text env self text).
Proof.
  intros w. unfold summarize_text, openai_ChatCompletion_create. run_unfold.
  destruct (chat_completion_create env (summary_request text)) as [e|response];
    simpl; [rewrite ?with_events_app; apply touched_events; simpl; (done || lia)|].
  destruct (Py.getitem_str response "choices") as [e|choices];
    simpl; [rewrite ?with_events_app; apply touched_events; simpl; (done || lia)|].
  destruct (Py.getitem_0 choices) as [e|choice];
    simpl; [rewrite ?with_events_app; apply touched_events; simpl; (done || lia)|].
  destruct (Py.getitem_str choice "message") as [e|msg];
    simpl; [rewrite ?with_events_app; apply touched_events; simpl; (done || lia)|].
  destruct (Py.getitem_str msg "content") as [e|body];
    simpl; [rewrite ?with_events_app; apply touched_events; simpl; (done || lia)|].
  destruct (Py.strip body) as [e|summary];
    simpl; rewrite ?with_events_app; apply touched_events; simpl; (done || lia).
Qed.

Lemma confined_ensure_dir env n k :
  output_dir k = true -> confined env n (ensure_dir env k).
Proof.
  intros Hk w. unfold ensure_dir, get_world, syscall_gate, set_dirs. run_unfold.
  cbv beta iota.
  destruct (Fs.is_dir_node w k); [apply touched_refl|].
  destruct (Fs.is_file_node w k); [apply touched_refl|].
  destruct (os_fault env (SysMkdir k)); [apply touched_refl|]. simpl.
  split; [done|]. split; [set_solver|]. split.
  - intros k' [->%elem_of_singleton | Hin]%elem_of_union; [by right|by left].
  - exists [DirCreated k]. split; [done|]. simpl. rewrite Hk. split; [done|lia].
Qed.

Lemma confined_ensure_dirs env n ks :
  forallb output_dir ks = true -> confined env n (ensure_dirs env ks).
Proof.
  induction ks as [|k ks IH]; simpl; [intros _; apply confined_ret|].
  intros [Hk Hks]%andb_true_iff.
  apply (confined_seq env 0 n); [by apply confined_ensure_dir|].
  intros _. by apply IH.
Qed.

Lemma confined_FileWriter_init env n d :
  forallb output_dir (Fs.chain [] (Fs.resolve d)) = true ->
  confined env n (FileWriter_init env d).
Proof.
  intros Hd. unfold FileWriter_init, ensure_directory_exists. simpl directory.
  apply (confined_seq env 0 n); [|intros _; apply confined_ret].
  intros w. unfold os_makedirs, get_world. rewrite run_bind. cbv beta iota.
  destruct (bool_decide (d = "")); [apply touched_refl|].
  rewrite andb_false_r. by apply confined_ensure_dirs.
Qed.

Lemma FileWriter_init_value env d w x w' :
  FileWriter_init env d w = (Return x, w') -> x = {| directory := d |}.
Proof.
  unfold FileWriter_init. rewrite run_bind.
  destruct (ensure_directory_exists env _ w) as [[[]|e|c] w1]; intros [= <- _]; done.
Qed.

Lemma confined_open_w_write env n p text :
  output_node (Fs.resolve p) = true -> confined env n (open_w_write env p text).
Proof.
  intros Hk w.
  assert (forall v evs,
            forallb (allowed_event env) evs = true ->
            chat_requests evs = [] ->
            touched_only_outputs env n w
              (World (dirs w) (<[Fs.resolve p := v]> (files w)) (events w ++ evs)
                 (ticks w) (openai_api_key w))) as Hput.
  { intros v evs Ha Hc. split; [|split; [done|split; [by left|]]].
    - intros k' Hk'. simpl. apply lookup_insert_ne. intros <-. congruence.
    - exists evs. split; [done|]. split; [done|]. rewrite Hc. simpl. lia. }
  unfold open_w_write, get_world, syscall_gate, set_files. run_unfold.
  cbv beta iota zeta.
  destruct (bool_decide (p = "")); [apply touched_refl|].
  destruct (_ || _); [apply touched_refl|].
  destruct (negb _); [apply touched_refl|].
  destruct (os_fault env (SysOpen (Fs.resolve p))); [apply touched_refl|]. simpl.
  destruct (os_fault env (SysWrite (Fs.resolve p))); simpl.
  - apply Hput; simpl; [by rewrite Hk|done].
  - unfold with_events, with_files. simpl. rewrite <- app_assoc.
    apply Hput; simpl; [by rewrite Hk|done].
Qed.

Lemma confined_write_to_file env n d name text :
  output_node (Fs.resolve (OsPath.join d name)) = true ->
  confined env n (write_to_file env {| directory := d |} name text).
Proof.
  intros Hk. unfold write_to_file. simpl directory.
  apply (confined_seq env 0 n); [by apply confined_open_w_write|].
  intros _. apply confined_logging_info.
Qed.

(** The name generated for an output of [main] gives an output node
    in either output directory. *)
Lemma filename_at_txt t base suffix :
  Str.endswith (filename_at t base suffix "txt") ".txt" = true.
Proof.
  apply str_endswith_spec.
  exists ((((base +:+ "_") +:+ suffix) +:+ "_") +:+ Fmt.strftime "%Y%m%d_%H%M%S" t).
  unfold filename_at. rewrite !str_app_assoc. reflexivity.
Qed.

Lemma generated_name_output_node env file_path suffix d w x w' :
  Str.contains OsPath.sep suffix = false ->
  output_dir [d] = true -> plain_name d ->
  generate_output_filename env
    (fst (OsPath.splitext (OsPath.basename file_path))) suffix "txt" w
    = (Return x, w') ->
  output_node (Fs.resolve (OsPath.join d x)) = true.
Proof.
  intros Hs Hd Hp. rewrite run_generate_output_filename. intros [= <- _].
  rewrite resolve_join_plain, (resolve_plain _ Hp).
  - cbn [app]. unfold output_node. rewrite Hd. cbn [andb].
    apply filename_at_txt.
  - apply output_name_plain; [|done..].
    apply splitext_root_plain, basename_plain.
Qed.

Lemma confined_main env : confined env 1 (main env).
Proof.
  unfold main.
  apply (confined_bind env 0 1 (fun x => x = env_file_path env)).
  { intros w. apply touched_refl. }
  { intros w x w' [= <- _]. reflexivity. }
  intros file_path ->.
  apply (confined_seq env 0 1); [intros w; apply touched_refl|].
  intros found. destruct (negb found); [apply confined_logging_error|].
  destruct (negb _); [apply confined_logging_error|].
  apply (confined_seq env 0 1); [apply confined_AudioProcessor_init|].
  intros audio_processor.
  apply (confined_seq env 0 1); [apply confined_logging_info|]. intros _.
  apply (confined_seq env 0 1); [apply confined_transcribe_audio|]. intros text.
  apply (confined_seq env 0 1); [apply confined_logging_info|]. intros _.
  apply (confined_seq env 0 1); [apply confined_logging_debug|]. intros _.
  apply (confined_bind env 0 1 (fun x => x = {| directory := "audio_transcription" |})).
  { by apply confined_FileWriter_init. }
  { intros w x w'. apply FileWriter_init_value. }
  intros transcription_writer ->.
  apply (confined_bind env 0 1
           (fun x => output_node (Fs.resolve (OsPath.join "audio_transcription" x))
                     = true)).
  { apply confined_generate_output_filename. }
  { intros w x w'. by apply generated_name_output_node. }
  intros transcription_filename Hnode1.
  apply (confined_seq env 0 1); [by apply confined_write_to_file|]. intros _.
  apply (confined_seq env 0 1); [apply confined_logging_info|]. intros _.
  apply (confined_seq env 1 0); [apply confined_summarize_text|]. intros summary.
  apply (confined_seq env 0 0); [apply confined_logging_info|]. intros _.
  apply (confined_seq env 0 0); [apply confined_logging_debug|]. intros _.
  apply (confined_bind env 0 0 (fun x => x = {| directory := "audio_summarize" |})).
  { by apply confined_FileWriter_init. }
  { intros w x w'. apply FileWriter_init_value. }
  intros summary_writer ->.
  apply (confined_bind env 0 0
           (fun x => output_node (Fs.resolve (OsPath.join "audio_summarize" x))
                     = true)).
  { apply confined_generate_output_filename. }
  { intros w x w'. by apply generated_name_output_node. }
  intros summary_filename Hnode2.
  by apply confined_write_to_file.
Qed.

(** Whatever the surroundings and however it ends, [main] does
    nothing but this: it logs at level INFO or above (no DEBUG record
    reaches the log, so the transcript and the summary are not echoed),
    loads the model [base], transcribes the input path, sends at most one
    chat request, and asks the file system for nothing but the two output
    directories and [.txt] names directly under them.  The paths are the
    ones the program spells. *)
Theorem main_acts_only_on_outputs (env : environ) (w : world) :
  exists evs,
    events (snd (main env w)) = events w ++ evs
    /\ forallb (allowed_event env) evs = true
    /\ (length (chat_requests evs) <= 1)%nat
    /\ (forall msg, Logged DEBUG msg ∉ evs)
    /\ (forall name, ModelLoaded name ∈ evs -> name = "base")
    /\ (forall path, Transcribed path ∈ evs -> path = env_file_path env)
    /\ (forall k, DirCreated k ∈ evs ->
          k = ["audio_transcription"] \/ k = ["audio_summarize"])
    /\ (forall k, FileOpened k ∈ evs \/ (exists text, FileWritten k text ∈ evs) ->
          exists dir name,
            k = [dir; name]
            /\ (dir = "audio_transcription" \/ dir = "audio_summarize")
            /\ Str.endswith name ".txt" = true).
Proof.
  destruct (confined_main env w) as (_ & _ & _ & evs & Hev & Hall & Hchat).
  exists evs. split; [exact Hev|]. split; [exact Hall|]. split; [exact Hchat|].
  rewrite forallb_forall in Hall.
  assert (forall ev, ev ∈ evs -> allowed_event env ev = true) as Hok.
  { intros ev Hin. by apply Hall, list_elem_of_In. }
  assert (forall d, output_dir [d] = true ->
            d = "audio_transcription" \/ d = "audio_summarize") as Hdir.
  { intros d. unfold output_dir.
    intros [H|H]%orb_true_iff; apply bool_decide_eq_true in H;
      injection H as ->; [by left|by right]. }
  split; [|split; [|split; [|split]]].
  - intros msg Hin. by specialize (Hok _ Hin).
  - intros name Hin. specialize (Hok _ Hin). by apply bool_decide_eq_true in Hok.
  - intros path Hin. specialize (Hok _ Hin). by apply bool_decide_eq_true in Hok.
  - intros k Hin. specialize (Hok _ Hin). simpl in Hok. unfold output_dir in Hok.
    apply orb_true_iff in Hok as [H|H]; apply bool_decide_eq_true in H; auto.
  - intros k Hin.
    assert (output_node k = true) as Hnode.
    { destruct Hin as [Hin | [text Hin]]; exact (Hok _ Hin). }
    destruct k as [|d [|name [|? ?]]]; try discriminate Hnode.
    apply andb_true_iff in Hnode as [Hd Hn]. exists d, name. auto.
Qed.

(** ** The input file *)

Lemma str_last_char_unique a b c1 c2 :
  a +:+ String c1 "" = b +:+ String c2 "" -> c1 = c2.
Proof.
  revert b. induction a as [|h a IH]; intros [|h' b] E.
  - by injection E.
  - rewrite str_app_cons in E. injection E as _ E. by destruct b.
  - rewrite str_app_cons in E. injection E as _ E. by destruct a.
  - rewrite !str_app_cons in E. injection E as _ E. by eapply IH.
Qed.

(** The last field of a path that ends with a separator-free string
    ends with that string. *)
Lemma fields_last_app p s :
  Str.contains OsPath.sep s = false ->
  exists init x, Fs.fields (p +:+ s) = init ++ [x +:+ s].
Proof.
  intros Hs. induction p as [|a p (init & x & IH)].
  - exists [], "". exact (fields_plain _ Hs).
  - rewrite str_app_cons. simpl. rewrite IH. case_bool_decide.
    + by exists ("" :: init), x.
    + destruct init as [|y r]; simpl.
      * by exists [], (String a x).
      * by exists (String a y :: r), x.
Qed.

(** The last component of an accepted path ends with a spelling of a
    supported suffix. *)
Lemma supported_last_component p :
  is_supported_format p = true ->
  exists x s0 suf,
    In suf supported_formats /\ Str.lower s0 = suf
    /\ last (Fs.resolve p) = Some (x +:+ s0).
Proof.
  intros (suf & pre & Hin & Hp)%is_supported_format_ending.
  destruct (supported_formats_shape _ Hin) as (t & Hsuf & _ & Hsep).
  (* the path ends with a spelling [s0] of the suffix *)
  set (n := String.length pre).
  set (s0 := Str.drop n p).
  assert (Str.lower s0 = suf) as Hs0.
  { unfold s0. rewrite str_lower_drop, Hp. apply str_drop_app_length. }
  assert (Str.contains OsPath.sep s0 = false) as Hplain.
  { rewrite <- (str_contains_lower _ _ lower_stable_sep), Hs0, Hsuf. simpl.
    by rewrite Hsep. }
  assert (p = Str.take n p +:+ s0) as Hsplit by (by rewrite str_take_drop).
  destruct (fields_last_app (Str.take n p) s0 Hplain) as (init & x & Hfields).
  rewrite <- Hsplit in Hfields.
  assert (x +:+ s0 <> "" /\ x +:+ s0 <> ".") as Hkeep.
  { assert (2 <= String.length (x +:+ s0))%nat as Hlen.
    { rewrite str_length_app, <- (str_lower_length s0), Hs0, Hsuf.
      destruct t; [|simpl; lia].
      rewrite Hsuf in Hin. simpl in Hin.
      repeat (destruct Hin as [Hin | Hin]; [discriminate Hin|]).
      destruct Hin. }
    split; intros E; rewrite E in Hlen; simpl in Hlen; lia. }
  exists x, s0, suf. split; [exact Hin|]. split; [exact Hs0|].
  unfold Fs.resolve, Fs.components. rewrite Hfields, filter_app.
  rewrite filter_cons_True, filter_nil by done.
  by rewrite app_assoc, last_snoc.
Qed.

(** A name that ends with a spelling of a supported suffix does not
    end lowercased with a character that ends no supported suffix. *)
Lemma supported_name_last_char x s0 suf z c :
  In suf supported_formats -> Str.lower s0 = suf ->
  Str.lower (x +:+ s0) = z +:+ String c "" ->
  In c ["3"; "4"; "g"; "a"; "v"; "m"]%char.
Proof.
  intros Hin Hs0 Hz.
  assert (exists body c', suf = body +:+ String c' ""
                          /\ In c' ["3"; "4"; "g"; "a"; "v"; "m"]%char)
    as (body & c' & Hbody & Hc').
  { unfold supported_formats in Hin. simpl in Hin.
    destruct Hin as [<-|[<-|[<-|[<-|[<-|[<-|[<-|[]]]]]]]].
    - exists ".mp", "3"%char. split; [reflexivity|simpl; tauto].
    - exists ".mp", "4"%char. split; [reflexivity|simpl; tauto].
    - exists ".mpe", "g"%char. split; [reflexivity|simpl; tauto].
    - exists ".mpg", "a"%char. split; [reflexivity|simpl; tauto].
    - exists ".m4", "a"%char. split; [reflexivity|simpl; tauto].
    - exists ".wa", "v"%char. split; [reflexivity|simpl; tauto].
    - exists ".web", "m"%char. split; [reflexivity|simpl; tauto]. }
  rewrite str_lower_app, Hs0, Hbody, <- str_app_assoc in Hz.
  apply str_last_char_unique in Hz. by subst c'.
Qed.

(** An accepted path names neither an output directory nor a [.txt]
    file in one. *)
Lemma supported_not_output p :
  is_supported_format p = true ->
  output_node (Fs.resolve p) = false /\ output_dir (Fs.resolve p) = false.
Proof.
  intros (x & s0 & suf & Hin & Hs0 & Hlast)%supported_last_component.
  assert (forall z c, Str.lower (x +:+ s0) = z +:+ String c "" ->
            In c ["3"; "4"; "g"; "a"; "v"; "m"]%char) as Hchar.
  { intros z c. by apply supported_name_last_char with suf. }
  split.
  - destruct (output_node (Fs.resolve p)) eqn:Hout; [exfalso|done].
    destruct (Fs.resolve p) as [|d [|name [|? ?]]]; try discriminate Hout.
    simpl in Hout, Hlast. injection Hlast as ->.
    apply andb_true_iff in Hout as [_ (z & Hz)%str_endswith_spec].
    apply (f_equal Str.lower) in Hz. rewrite (str_lower_app z) in Hz.
    change (Str.lower ".txt") with (".tx" +:+ String "t" "") in Hz.
    rewrite <- str_app_assoc in Hz.
    specialize (Hchar _ _ Hz). simpl in Hchar.
    repeat (destruct Hchar as [Hchar | Hchar]; [discriminate Hchar|]). done.
  - destruct (output_dir (Fs.resolve p)) eqn:Hout; [exfalso|done].
    unfold output_dir in Hout.
    apply orb_true_iff in Hout as [H|H]; apply bool_decide_eq_true in H;
      rewrite H in Hlast; simpl in Hlast; injection Hlast as Hname;
      apply (f_equal Str.lower) in Hname.
    + change (Str.lower "audio_transcription")
        with ("audio_transcriptio" +:+ String "n" "") in Hname.
      symmetry in Hname. specialize (Hchar _ _ Hname). simpl in Hchar.
      repeat (destruct Hchar as [Hchar | Hchar]; [discriminate Hchar|]). done.
    + change (Str.lower "audio_summarize")
        with ("audio_summariz" +:+ String "e" "") in Hname.
      symmetry in Hname. specialize (Hchar _ _ Hname). simpl in Hchar.
      repeat (destruct Hchar as [Hchar | Hchar]; [discriminate Hchar|]). done.
Qed.

(** [main] never asks for its input path to be written: whatever the
    surroundings and however the run ends, no file is opened or written
    and no directory is made at the path of the input.  An accepted path
    ends with a supported suffix, and what [main] opens ends with
    [.txt]. *)
Theorem main_never_writes_input_path (env : environ) (w : world) :
  exists evs,
    events (snd (main env w)) = events w ++ evs
    /\ forall ev, ev ∈ evs -> event_node ev <> Some (Fs.resolve (env_file_path env)).
Proof.
  destruct (is_supported_format (env_file_path env)) eqn:Hfmt.
  - destruct (confined_main env w) as (_ & _ & _ & evs & Hev & Hall & _).
    apply supported_not_output in Hfmt as [Hnode Hdir].
    exists evs. split; [exact Hev|]. intros ev Hin Hk.
    rewrite forallb_forall in Hall.
    assert (allowed_event env ev = true) as Hok by (by apply Hall, list_elem_of_In).
    destruct ev; try discriminate Hk; injection Hk as ->; simpl in Hok; congruence.
  - destruct (run_main_rejects env w) as (msg & ->); [by right|].
    exists [Logged ERROR msg]. split; [done|].
    intros ev ->%list_elem_of_singleton. discriminate.
Qed.

(** ** Validation, in order *)

(** The existence of the path is checked before its format: a path
    that does not exist is reported as missing whatever its format, and
    the format error is logged only for a path that exists.  Each time
    that one ERROR record is all [main] does. *)
Theorem main_validation_order (env : environ) (w : world) :
  (Fs.exists_ w (env_file_path env) = false ->
   main env w
     = (Return tt,
        with_events w [Logged ERROR "The specified file does not exist."]))
  /\ (Fs.exists_ w (env_file_path env) = true ->
      is_supported_format (env_file_path env) = false ->
      main env w
        = (Return tt,
           with_events w
             [Logged ERROR
                "Unsupported file format. Supported formats are: mp3, mp4, mpeg, mpga, m4a, wav, webm"])).
Proof.
  assert (parse_arguments env w = (Return (env_file_path env), w)) as Hparse
    by reflexivity.
  assert (os_path_exists (env_file_path env) w
          = (Return (Fs.exists_ w (env_file_path env)), w)) as Hfound
    by reflexivity.
  split.
  - intros Hex. unfold main. step Hparse. step Hfound. by rewrite Hex.
  - intros Hex Hfmt. unfold main. step Hparse. step Hfound. by rewrite Hex, Hfmt.
Qed.

Lemma main_validation_order_witness :
  Fs.exists_ speech_world (env_file_path missing_env) = false
  /\ Fs.exists_ notes_world (env_file_path pdf_env) = true
  /\ is_supported_format (env_file_path pdf_env) = false
  /\ main missing_env speech_world
     = (Return tt,
        with_events speech_world [Logged ERROR "The specified file does not exist."])
  /\ events (snd (main pdf_env notes_world))
     = [Logged ERROR
          "Unsupported file format. Supported formats are: mp3, mp4, mpeg, mpga, m4a, wav, webm"].
Proof.
  assert (Fs.exists_ speech_world (env_file_path missing_env) = false) as Hex
    by (vm_compute; reflexivity).
  assert (Fs.exists_ notes_world (env_file_path pdf_env) = true) as Hex'
    by (vm_compute; reflexivity).
  assert (is_supported_format (env_file_path pdf_env) = false) as Hfmt
    by reflexivity.
  split; [exact Hex|]. split; [exact Hex'|]. split; [exact Hfmt|]. split.
  - exact (proj1 (main_validation_order missing_env speech_world) Hex).
  - by rewrite (proj2 (main_validation_order pdf_env notes_world) Hex' Hfmt).
Defined.

(** ** The format check, again *)

Lemma str_lower_char_idem a : Str.lower_char (Str.lower_char a) = Str.lower_char a.
Proof. by destruct a as [[] [] [] [] [] [] [] []]. Qed.

Lemma str_lower_idem s : Str.lower (Str.lower s) = Str.lower s.
Proof.
  induction s as [|a s IH]; [done|]. simpl. by rewrite str_lower_char_idem, IH.
Qed.

(** The verdict of [is_supported_format] does not depend on the case
    of the letters of the path, and what stands in front of an accepted
    path does not matter: it stays accepted under any prefix. *)
Theorem is_supported_format_case_and_prefix (p q dir : string) :
  is_supported_format (Str.lower p) = is_supported_format p
  /\ (Str.lower q = Str.lower p -> is_supported_format q = is_supported_format p)
  /\ (is_supported_format p = true -> is_supported_format (dir +:+ p) = true).
Proof.
  unfold is_supported_format. split; [|split].
  - by rewrite str_lower_idem.
  - by intros ->.
  - intros (suf & pre & Hin & Hp)%str_endswith_any_spec.
    apply str_endswith_any_spec. exists suf, (Str.lower dir +:+ pre).
    split; [done|]. by rewrite str_lower_app, Hp, str_app_assoc.
Qed.

Lemma is_supported_format_case_and_prefix_witness :
  Str.lower "TALK.Mp3" = Str.lower "talk.mp3"
  /\ is_supported_format "talk.mp3" = true
  /\ is_supported_format "TALK.Mp3" = true
  /\ is_supported_format ("/srv/in/" +:+ "talk.mp3") = true.
Proof.
  assert (Str.lower "TALK.Mp3" = Str.lower "talk.mp3") as Hl by reflexivity.
  assert (is_supported_format "talk.mp3" = true) as Hs by reflexivity.
  split; [exact Hl|]. split; [exact Hs|].
  destruct (is_supported_format_case_and_prefix "talk.mp3" "TALK.Mp3" "/srv/in/")
    as (_ & Hcase & Hpre).
  split; [by rewrite (Hcase Hl)|exact (Hpre Hs)].
Defined.

(** ** File names given to [write_to_file] *)

(** A file name that starts with a separator is not placed under the
    directory of the writer: [os.path.join] drops the directory and the
    file is written at the absolute path itself. *)
Theorem write_to_file_absolute_filename
    (env : environ) (dir filename text : string) (w : world) :
  Str.startswith filename "/" = true ->
  can_write env w filename = true ->
  exists w',
    write_to_file env {| directory := dir |} filename text w = (Return tt, w')
    /\ files w' = <[Fs.resolve filename := text]> (files w)
    /\ Fs.read w' filename = Some text
    /\ head (Fs.resolve filename) = Some "/".
Proof.
  intros Habs Hcan.
  assert (OsPath.join dir filename = filename) as Hjoin.
  { unfold OsPath.join. by rewrite Habs. }
  pose proof (run_write_to_file env dir filename text w) as Hrun.
  rewrite Hjoin in Hrun. eexists. split; [by apply Hrun|].
  split; [done|]. split.
  - unfold can_write in Hcan.
    rewrite !andb_true_iff, !negb_true_iff, orb_false_iff in Hcan.
    destruct Hcan as ((((Hne & _ & Hwd) & _) & _) & _).
    apply bool_decide_eq_false in Hne. by apply read_after_write.
  - unfold Fs.resolve. by rewrite Habs.
Qed.

Lemma write_to_file_absolute_filename_witness :
  Str.startswith "/notes.txt" "/" = true
  /\ can_write speech_env speech_world "/notes.txt" = true
  /\ exists w',
       write_to_file speech_env {| directory := "audio_summarize" |} "/notes.txt"
         "hello" speech_world = (Return tt, w')
       /\ files w' !! ["/"; "notes.txt"] = Some "hello".
Proof.
  assert (Str.startswith "/notes.txt" "/" = true) as Habs by reflexivity.
  assert (can_write speech_env speech_world "/notes.txt" = true) as Hcan
    by (vm_compute; reflexivity).
  split; [exact Habs|]. split; [exact Hcan|].
  destruct (write_to_file_absolute_filename speech_env "audio_summarize"
              "/notes.txt" "hello" speech_world Habs Hcan)
    as (w' & Hrun & Hfiles & _).
  exists w'. split; [exact Hrun|]. rewrite Hfiles. apply lookup_insert_eq.
Defined.

(** ** The base name of an accepted path *)

Lemma str_drop_app_le n pre s :
  (n <= String.length pre)%nat ->
  Str.drop n (pre +:+ s) = Str.drop n pre +:+ s.
Proof.
  revert pre. induction n as [|n IH]; intros [|a pre] Hn; simpl in *; try done; try lia.
  rewrite ?str_app_cons. simpl. apply IH. lia.
Qed.

(** Whether a path is accepted is decided by its last component. *)
Lemma is_supported_format_basename p :
  is_supported_format (OsPath.basename p) = is_supported_format p.
Proof.
  apply Bool.eq_true_iff_eq. rewrite !is_supported_format_ending. split.
  - intros (suf & pre & Hin & Hb).
    destruct (basename_eq p) as (head & Hp & _).
    exists suf, (Str.lower head +:+ pre). split; [done|].
    rewrite Hp at 1. by rewrite str_lower_app, Hb, str_app_assoc.
  - intros (suf & pre & Hin & Hp).
    destruct (supported_formats_shape _ Hin) as (t & Hsuf & _ & Hsep).
    assert (Str.contains OsPath.sep suf = false) as Hplain.
    { rewrite Hsuf. simpl. by rewrite Hsep. }
    pose proof (str_rfind_bounds OsPath.sep pre) as Hb.
    assert (Str.rfind OsPath.sep p = Str.rfind OsPath.sep pre) as Hr.
    { by rewrite <- (str_rfind_lower _ _ lower_stable_sep), Hp, str_rfind_app_absent. }
    exists suf, (Str.drop (Z.to_nat (Str.rfind OsPath.sep pre + 1)) pre).
    split; [done|].
    unfold OsPath.basename, Str.slice_from. rewrite Hr, str_lower_drop, Hp.
    apply str_drop_app_le. unfold Str.len in Hb. lia.
Qed.

(** For an accepted path, the base name [main] uses for its outputs
    is the last component of the path with its supported extension taken
    off; only when that component has no extension (dots followed by the
    suffix, such as [.mp3]) is it used whole. *)
Theorem base_name_of_accepted_path (p : string) :
  is_supported_format p = true ->
  let base := fst (OsPath.splitext (OsPath.basename p)) in
  let ext := snd (OsPath.splitext (OsPath.basename p)) in
  base +:+ ext = OsPath.basename p
  /\ Str.contains OsPath.sep base = false
  /\ (In (Str.lower ext) supported_formats
      \/ (ext = "" /\ base = OsPath.basename p)).
Proof.
  intros Hfmt base ext. split; [apply splitext_app|].
  split; [apply splitext_root_plain, basename_plain|].
  rewrite <- is_supported_format_basename in Hfmt.
  apply is_supported_format_ending in Hfmt as (suf & pre & Hin & Hb).
  destruct (supported_formats_shape _ Hin) as (t & -> & Ht & _).
  destruct (splitext_ext_of_ending _ _ _ Hb Ht) as [He | He].
  - right. split; [exact He|].
    pose proof (splitext_app (OsPath.basename p)) as Happ.
    fold base ext in Happ. unfold ext in Happ. rewrite He in Happ.
    by rewrite str_app_nil_r in Happ.
  - left. unfold ext. by rewrite He.
Qed.

Lemma base_name_of_accepted_path_witness :
  is_supported_format "in/Talk.v2.MP3" = true
  /\ fst (OsPath.splitext (OsPath.basename "in/Talk.v2.MP3")) = "Talk.v2"
  /\ In (Str.lower (snd (OsPath.splitext (OsPath.basename "in/Talk.v2.MP3"))))
       supported_formats.
Proof.
  assert (is_supported_format "in/Talk.v2.MP3" = true) as H by reflexivity.
  split; [exact H|]. split; [reflexivity|].
  destruct (base_name_of_accepted_path "in/Talk.v2.MP3" H) as (_ & _ & [Hin | [He _]]).
  - exact Hin.
  - discriminate He.
Defined.
